(** * Car health diagnosis engine: rule evaluator, classifier adapter, fusion

    A shallow embedding of the diagnosis core of [src/app_main.py]:
    - [check_custom_rules] (lines 304-331), the threshold rule evaluator;
    - [predict_failure] (lines 333-361), the adapter around the pickled
      classifier, scaler, encoder and training column list;
    - the fusion of both into [all_alerts] and the rendering of the verdict
      (lines 927-942 of the "Detailed Analysis" page).

    Python dictionaries are [gmap string value], Python sets of labels are
    [gset string], exceptions are an explicit [result] type, and the [try]
    block of the rule evaluator is a small state-and-exception monad over the
    [alerts] list it mutates. *)

From Stdlib Require Import QArith Qround.
From stdpp Require Import gmap strings list.

#[local] Set Warnings "-clear-no-such-hyp".

Local Open Scope string_scope.
Local Open Scope list_scope.

(** ** Python numbers

    An [int], a [float] or a numpy scalar is compared by its exact numeric
    value, so a finite number is the rational it denotes; the three
    non-finite floats are kept apart because every ordering comparison with
    [nan] is [False]. *)

Inductive num : Type :=
  | Finite (q : Q)
  | PosInf
  | NegInf
  | NaN.

Definition Qlt_bool (a b : Q) : bool := negb (Qle_bool b a).

(** [x <= y] *)
Definition num_le (x y : num) : bool :=
  match x, y with
  | NaN, _ | _, NaN => false
  | Finite a, Finite b => Qle_bool a b
  | NegInf, _ => true
  | _, PosInf => true
  | _, _ => false
  end.

(** [x < y] *)
Definition num_lt (x y : num) : bool :=
  match x, y with
  | NaN, _ | _, NaN => false
  | Finite a, Finite b => Qlt_bool a b
  | NegInf, NegInf => false
  | NegInf, _ => true
  | PosInf, _ => false
  | Finite _, PosInf => true
  | Finite _, NegInf => false
  end.

(** [x > y] and [x >= y] *)
Definition num_gt (x y : num) : bool := num_lt y x.
Definition num_ge (x y : num) : bool := num_le y x.

(** An integer literal of the source. *)
Definition int (z : Z) : num := Finite (inject_Z z).

(** ** Python values and exceptions *)

(** What a vitals dictionary can hold: a number, a string, [None], or any
    other object without an ordering against numbers (the diagnosis input
    carries the selected car, itself a dictionary, under the key "car"). *)
Inductive value : Type :=
  | VNum (x : num)
  | VStr (s : string)
  | VNone
  | VObj.

Inductive exn : Type :=
  | KeyError (k : string)
  | TypeError
  | ValueError
  | AttributeError.

Inductive result (A : Type) : Type :=
  | Ok (a : A)
  | Err (e : exn).
Arguments Ok {A} a.
Arguments Err {A} e.

#[global] Instance result_ret : MRet result := @Ok.
#[global] Instance result_bind : MBind result := fun A B f m =>
  match m with
  | Ok a => f a
  | Err e => Err e
  end.

(** [data[k]]: a missing key raises [KeyError]. *)
Definition getitem (data : gmap string value) (k : string) : result value :=
  match data !! k with
  | Some v => Ok v
  | None => Err (KeyError k)
  end.

(** [data.get(k, d)] *)
Definition dict_get (data : gmap string value) (k : string) (d : value) : value :=
  default d (data !! k).

(** [v < c], [v > c] for a numeric constant [c]: ordering a string, [None]
    or a dictionary against a number raises [TypeError]. *)
Definition py_lt (v : value) (c : num) : result bool :=
  match v with
  | VNum x => Ok (num_lt x c)
  | _ => Err TypeError
  end.

Definition py_gt (v : value) (c : num) : result bool :=
  match v with
  | VNum x => Ok (num_gt x c)
  | _ => Err TypeError
  end.

(** [a or b] on conditions: [b] is evaluated only when [a] is false. *)
Definition py_or (a b : result bool) : result bool :=
  match a with
  | Ok true => Ok true
  | Ok false => b
  | Err e => Err e
  end.

(** ** Statements over the [alerts] list

    The body of the [try] appends to the list [alerts] in place, so what was
    appended before an exception is still there in the handler: a statement
    maps the list to the new list together with its outcome. *)

Definition stmt : Type := list string → list string * result unit.

(** [alerts.append(label)] *)
Definition alerts_append (label : string) : stmt :=
  fun alerts => (alerts ++ [label], Ok ()).

(** [if cond: body] *)
Definition py_if (cond : result bool) (body : stmt) : stmt :=
  fun alerts =>
    match cond with
    | Ok true => body alerts
    | Ok false => (alerts, Ok ())
    | Err e => (alerts, Err e)
    end.

Definition stmt_seq (s1 s2 : stmt) : stmt :=
  fun alerts =>
    match s1 alerts with
    | (alerts', Ok _) => s2 alerts'
    | (alerts', Err e) => (alerts', Err e)
    end.

Declare Scope stmt_scope.
Delimit Scope stmt_scope with stmt.
Notation "s1 ;; s2" := (stmt_seq s1 s2)
  (at level 100, s2 at level 200, right associativity) : stmt_scope.

(** ** The rule evaluator, [check_custom_rules] (lines 304-331) *)

Section Rules.
Variable data : gmap string value.

(** The conditions of the ten [if] statements, in source order. *)
Definition cond_odometer : result bool :=
  v ← getitem data "odometer_km"; py_gt v (int 300000).
Definition cond_engine_temp : result bool :=
  v ← getitem data "engine_temp_c"; py_gt v (int 110).
Definition cond_battery : result bool :=
  v ← getitem data "battery_voltage_v"; py_lt v (Finite 12).
Definition cond_oil_pressure : result bool :=
  v ← getitem data "oil_pressure_kpa"; py_lt v (int 150).
Definition cond_brake_pads : result bool :=
  py_or (v ← getitem data "brake_pad_wear_mm_front"; py_lt v (int 3))
        (py_lt (dict_get data "brake_pad_wear_mm_rear" (VNum (int 3))) (int 3)).
Definition cond_suspension : result bool :=
  v ← getitem data "suspension_health_pct"; py_lt v (int 40).
Definition cond_tire_pressure : result bool :=
  v ← getitem data "tire_pressure_psi_fl"; py_lt v (int 20).
Definition cond_coolant : result bool :=
  v ← getitem data "coolant_level_pct"; py_lt v (int 30).
Definition cond_brake_fluid : result bool :=
  v ← getitem data "brake_fluid_level_pct"; py_lt v (int 20).
Definition cond_transmission : result bool :=
  v ← getitem data "transmission_fluid_temp_c"; py_gt v (int 110).

(** The body of the [try]. *)
Definition rules_try_body : stmt :=
  (py_if cond_odometer (alerts_append "Maintenance Due / High Mileage Warning") ;;
   py_if cond_engine_temp (alerts_append "Engine Overheating") ;;
   py_if cond_battery (alerts_append "Battery Failure") ;;
   py_if cond_oil_pressure (alerts_append "Low Oil Pressure Warning") ;;
   py_if cond_brake_pads (alerts_append "Brake Pads Critically Worn") ;;
   py_if cond_suspension (alerts_append "Suspension Failure Risk") ;;
   py_if cond_tire_pressure (alerts_append "Low Tire Pressure") ;;
   py_if cond_coolant (alerts_append "Coolant Critically Low") ;;
   py_if cond_brake_fluid (alerts_append "Brake Fluid Critically Low") ;;
   py_if cond_transmission (alerts_append "Transmission Overheating"))%stmt.

(** [alerts = []], then the [try]; [except Exception: pass] swallows
    whatever the body raised, and [return alerts] gives the list as the
    body left it. *)
Definition check_custom_rules : result (list string) :=
  let alerts := [] in
  match rules_try_body alerts with
  | (alerts, Ok _) => Ok alerts
  | (alerts, Err _) => Ok alerts
  end.
End Rules.

(** *** The rules as a table

    The same ten checks as data: each condition with the label its [if]
    appends. [run_rules] walks the table the way the [try] body runs, and
    stops at the first condition that raises. *)

Definition rule_table (data : gmap string value) : list (result bool * string) :=
  [ (cond_odometer data, "Maintenance Due / High Mileage Warning");
    (cond_engine_temp data, "Engine Overheating");
    (cond_battery data, "Battery Failure");
    (cond_oil_pressure data, "Low Oil Pressure Warning");
    (cond_brake_pads data, "Brake Pads Critically Worn");
    (cond_suspension data, "Suspension Failure Risk");
    (cond_tire_pressure data, "Low Tire Pressure");
    (cond_coolant data, "Coolant Critically Low");
    (cond_brake_fluid data, "Brake Fluid Critically Low");
    (cond_transmission data, "Transmission Overheating") ].

Fixpoint run_rules (rules : list (result bool * string)) (alerts : list string)
  : list string :=
  match rules with
  | [] => alerts
  | (cond, label) :: rules' =>
      match cond with
      | Ok b => run_rules rules' (if b then alerts ++ [label] else alerts)
      | Err _ => alerts
      end
  end.

(** The ten fixed alert labels. *)
Definition alert_labels : list string :=
  [ "Maintenance Due / High Mileage Warning";
    "Engine Overheating";
    "Battery Failure";
    "Low Oil Pressure Warning";
    "Brake Pads Critically Worn";
    "Suspension Failure Risk";
    "Low Tire Pressure";
    "Coolant Critically Low";
    "Brake Fluid Critically Low";
    "Transmission Overheating" ].

(** The reading of the handler's comment ("If missing keys, ignore rule
    checks for missing fields") and of the specification: every rule is looked
    at on its own, a rule whose condition raises is skipped, and every rule
    whose condition holds contributes its label. *)
Fixpoint fired_labels (rules : list (result bool * string)) : list string :=
  match rules with
  | [] => []
  | (Ok true, label) :: rules' => label :: fired_labels rules'
  | _ :: rules' => fired_labels rules'
  end.

Definition spec_rules_checked_independently (data : gmap string value)
  : list string :=
  fired_labels (rule_table data).

(** ** The classifier adapter, [predict_failure] (lines 333-361) *)

(** The pickled objects, seen through the methods the adapter calls. A
    scikit-learn method either returns or raises (the scaler, for one, raises
    [ValueError] on a row it cannot convert to numbers): a scaled feature row
    is a list of numbers, an encoded class is its index. *)
Record Classifier : Type := {
  predict : list num → result nat;
  predict_proba : list num → result (list num)
}.

Record Scaler : Type := {
  transform : list value → result (list num)
}.

Record LabelEncoder : Type := {
  inverse_transform : nat → result string
}.

(** The four module-level globals set by [load_model_assets] (line 211);
    [None] when the asset is unavailable. *)
Record ModelAssets : Type := {
  model : option Classifier;
  scaler : option Scaler;
  encoder : option LabelEncoder;
  training_columns : option (list string)
}.

(** What [load_model_assets] returns when a file is missing (line 209). *)
Definition assets_not_found : ModelAssets :=
  {| model := None; scaler := None; encoder := None; training_columns := None |}.

(** Truth value of an asset: [None] is false, a loaded object is true. *)
Definition truthy {A : Type} (o : option A) : bool :=
  match o with
  | Some _ => true
  | None => false
  end.

(** Truth value of the column list: [None] and the empty list are false. *)
Definition truthy_list {A : Type} (o : option (list A)) : bool :=
  match o with
  | Some (_ :: _) => true
  | _ => false
  end.

(** [all(bs)] *)
Definition py_all (bs : list bool) : bool := forallb id bs.

(** A method call on a global: on [None] it raises [AttributeError]. *)
Definition deref {A : Type} (o : option A) : result A :=
  match o with
  | Some a => Ok a
  | None => Err AttributeError
  end.

(** [try: e except Exception: d] as an expression *)
Definition try_or (e : result value) (d : value) : value :=
  match e with
  | Ok v => v
  | Err _ => d
  end.

(** numpy's [max] of two numbers: [nan] wins. *)
Definition num_max (x y : num) : num :=
  match x, y with
  | NaN, _ | _, NaN => NaN
  | _, _ => if num_lt x y then y else x
  end.

(** [a.max()]: the largest entry; raises [ValueError] on an empty array. *)
Definition np_max (a : list num) : result num :=
  match a with
  | [] => Err ValueError
  | x :: a' => Ok (foldl num_max x a')
  end.

(** The float literals [1e-6] and [0.0]; [1e-6] is the binary64 number
    nearest to it. *)
Definition float_1e_6 : num := Finite (4722366482869645 # 4722366482869645213696).
Definition float_0 : num := Finite 0.

(** The result tuple of [predict_failure]. *)
Definition prediction : Type := string * num * option (list num).

Definition is_zero (x : num) : bool :=
  match x with
  | Finite a => Qeq_bool a 0
  | _ => false
  end.

Definition is_neg (x : num) : bool :=
  match x with
  | Finite a => Qlt_bool a 0
  | NegInf => true
  | _ => false
  end.

Section Adapter.
(** pandas' elementwise [+] and [/] on the one-row columns: library code,
    which raises on operands it cannot combine. *)
Variable series_add series_truediv : value → value → result value.

(** binary64 rounding of an exact result (to a finite float or, on
    overflow, an infinity). *)
Variable round64 : Q → num.

(** [x * y] on floats *)
Definition float_mul (x y : num) : num :=
  match x, y with
  | NaN, _ | _, NaN => NaN
  | Finite a, Finite b => round64 (a * b)
  | _, _ =>
      if is_zero x || is_zero y then NaN
      else if xorb (is_neg x) (is_neg y) then NegInf else PosInf
  end.

(** [input_df["engine_temp_c"] / (input_df["oil_pressure_kpa"] + 1e-6)] *)
Definition temp_pressure_ratio (input_df : gmap string value) : result value :=
  t ← getitem input_df "engine_temp_c";
  p ← getitem input_df "oil_pressure_kpa";
  d ← series_add p (VNum float_1e_6);
  series_truediv t d.

(** [input_df["brake_pad_wear_mm_front"] + input_df["brake_pad_wear_mm_rear"]] *)
Definition total_brake_wear (input_df : gmap string value) : result value :=
  f ← getitem input_df "brake_pad_wear_mm_front";
  r ← getitem input_df "brake_pad_wear_mm_rear";
  series_add f r.

(** [input_df.reindex(columns=training_columns, fill_value=0)]: the row in
    training column order, [0] for a column the frame does not have. *)
Definition reindex (input_df : gmap string value) (columns : list string)
  : list value :=
  (λ c, default (VNum (int 0)) (input_df !! c)) <$> columns.

Definition predict_failure (assets : ModelAssets)
    (input_data : gmap string value) : result prediction :=
  if negb (py_all [truthy (model assets); truthy (scaler assets);
                   truthy (encoder assets);
                   truthy_list (training_columns assets)])
  then Ok ("Model not loaded", int 0, None)
  else
    (* the one-row frame: a column name maps to the row's value *)
    let input_df := input_data in
    let input_df :=
      <["temp_pressure_ratio" :=
          try_or (temp_pressure_ratio input_df) (VNum float_0)]> input_df in
    let input_df :=
      <["total_brake_wear" :=
          try_or (total_brake_wear input_df) (VNum float_0)]> input_df in
    columns ← deref (training_columns assets);
    let input_df := reindex input_df columns in
    the_scaler ← deref (scaler assets);
    input_scaled ← transform the_scaler input_df;
    the_model ← deref (model assets);
    prediction_encoded ← predict the_model input_scaled;
    prediction_proba ← predict_proba the_model input_scaled;
    the_encoder ← deref (encoder assets);
    predicted_failure ← inverse_transform the_encoder prediction_encoded;
    top ← np_max prediction_proba;
    let confidence := float_mul top (int 100) in
    Ok (predicted_failure, confidence, Some prediction_proba).
End Adapter.

(** ** Fusion and verdict (lines 927-942) *)

(** [x not in xs] *)
Definition py_not_in (x : string) (xs : list string) : bool :=
  negb (bool_decide (x ∈ xs)).

(** Lines 929-931: [set(rule_alerts)], then the guarded [add]. *)
Definition all_alerts (rule_alerts : list string) (predicted_failure : string)
    (confidence : num) : gset string :=
  let all_alerts : gset string := list_to_set rule_alerts in
  if py_not_in predicted_failure ["None"; "Normal"] && num_ge confidence (int 50)
  then {[predicted_failure]} ∪ all_alerts
  else all_alerts.

(** The verdict the page works with from line 932 on: the values of
    [all_alerts], [confidence] and [prediction_proba]. *)
Record Verdict : Type := {
  verdict_alerts : gset string;
  verdict_confidence : num;
  verdict_proba : option (list num)
}.

Definition fuse (rule_alerts : list string) (p : prediction) : Verdict :=
  let '(predicted_failure, confidence, prediction_proba) := p in
  {| verdict_alerts := all_alerts rule_alerts predicted_failure confidence;
     verdict_confidence := confidence;
     verdict_proba := prediction_proba |}.

(** The Streamlit calls of lines 933-942. [st_metric] carries its label and
    the number handed to the [.1f] format; [st_warning] the alert count. *)
Inductive widget : Type :=
  | st_error (alert : string)
  | st_metric (label : string) (value : num)
  | st_warning (count : nat)
  | st_success
  | st_info.

Definition render_verdict (v : Verdict) : list widget :=
  let all_alerts := verdict_alerts v in
  let confidence := verdict_confidence v in
  if bool_decide (all_alerts ≠ ∅) then
    (st_error <$> elements all_alerts) ++
    [st_metric "Prediction Confidence" confidence] ++
    (if bool_decide (1 < size all_alerts)%nat
     then [st_warning (size all_alerts)] else [])
  else
    [st_success; st_metric "Confidence in Normal Status" confidence; st_info].

(** Lines 927-931 as one function of the vitals. *)
Definition run_diagnosis (series_add series_truediv : value → value → result value)
    (round64 : Q → num) (assets : ModelAssets) (data : gmap string value)
    : result Verdict :=
  rule_alerts ← check_custom_rules data;
  p ← predict_failure series_add series_truediv round64 assets data;
  mret (fuse rule_alerts p).

(** ** Safe bands and sample readings *)

(** The key is present, holds a number, and the number is in the band. *)
Definition within (data : gmap string value) (k : string) (band : num → bool)
  : bool :=
  match data !! k with
  | Some (VNum x) => band x
  | _ => false
  end.

(** Every monitored vital is present and inside its safe band. *)
Definition all_within_safe_bands (data : gmap string value) : bool :=
  within data "odometer_km" (λ x, num_le x (int 300000)) &&
  within data "engine_temp_c" (λ x, num_le x (int 110)) &&
  within data "battery_voltage_v" (λ x, num_ge x (Finite 12)) &&
  within data "oil_pressure_kpa" (λ x, num_ge x (int 150)) &&
  within data "brake_pad_wear_mm_front" (λ x, num_ge x (int 3)) &&
  within data "brake_pad_wear_mm_rear" (λ x, num_ge x (int 3)) &&
  within data "suspension_health_pct" (λ x, num_ge x (int 40)) &&
  within data "tire_pressure_psi_fl" (λ x, num_ge x (int 20)) &&
  within data "coolant_level_pct" (λ x, num_ge x (int 30)) &&
  within data "brake_fluid_level_pct" (λ x, num_ge x (int 20)) &&
  within data "transmission_fluid_temp_c" (λ x, num_le x (int 110)).

(** The float literal [13.8], as the binary64 number it denotes. *)
Definition float_13_8 : num := Finite (3884354678607053 # 281474976710656).

(** The high-mileage reading of the end-to-end scenario. *)
Definition high_mileage_vitals : gmap string value :=
  list_to_map
    [ ("odometer_km", VNum (int 320000));
      ("engine_temp_c", VNum (int 95));
      ("battery_voltage_v", VNum float_13_8);
      ("oil_pressure_kpa", VNum (int 300));
      ("brake_pad_wear_mm_front", VNum (int 8));
      ("brake_pad_wear_mm_rear", VNum (int 8));
      ("suspension_health_pct", VNum (int 80));
      ("tire_pressure_psi_fl", VNum (int 32));
      ("coolant_level_pct", VNum (int 90));
      ("brake_fluid_level_pct", VNum (int 90));
      ("transmission_fluid_temp_c", VNum (int 90)) ].

(** A healthy reading: the one above with 1000 km on the odometer. *)
Definition healthy_vitals : gmap string value :=
  <["odometer_km" := VNum (int 1000)]> high_mileage_vitals.

(** An overheating engine, with and without the odometer reading. *)
Definition overheating_vitals : gmap string value :=
  <["engine_temp_c" := VNum (int 115)]> healthy_vitals.

Definition overheating_no_odometer : gmap string value :=
  delete "odometer_km" overheating_vitals.

(** A reading with the front pads at 8 mm and no rear pad entry. *)
Definition no_rear_pad_vitals : gmap string value :=
  delete "brake_pad_wear_mm_rear" healthy_vitals.

(** ** A sample instance of the adapter's surroundings

    Exact arithmetic in place of binary64 (every result counts as
    representable, so rounding only reduces the fraction), and a small
    two-class classifier. *)

Definition exact_round (q : Q) : num := Finite (Qred q).

Definition num_add (x y : num) : num :=
  match x, y with
  | NaN, _ | _, NaN => NaN
  | Finite a, Finite b => Finite (a + b)
  | PosInf, NegInf | NegInf, PosInf => NaN
  | PosInf, _ | _, PosInf => PosInf
  | NegInf, _ | _, NegInf => NegInf
  end.

Definition num_div (x y : num) : num :=
  match x, y with
  | NaN, _ | _, NaN => NaN
  | Finite a, Finite b =>
      if Qeq_bool b 0 then
        if Qeq_bool a 0 then NaN else if Qlt_bool a 0 then NegInf else PosInf
      else Finite (a / b)
  | Finite _, _ => Finite 0
  | _, Finite _ => if xorb (is_neg x) (is_neg y) then NegInf else PosInf
  | _, _ => NaN
  end.

Definition lift_series (op : num → num → num) (a b : value) : result value :=
  match a, b with
  | VNum x, VNum y => Ok (VNum (op x y))
  | _, _ => Err TypeError
  end.

Definition sample_add : value → value → result value := lift_series num_add.
Definition sample_truediv : value → value → result value := lift_series num_div.

(** Class 1 ("Engine Overheating") when the first feature is positive. *)
Definition sample_model : Classifier :=
  {| predict := λ features,
       match features with
       | Finite t :: _ => Ok (if Qlt_bool 0 t then 1%nat else 0%nat)
       | _ => Ok 0%nat
       end;
     predict_proba := λ features,
       match features with
       | Finite t :: _ =>
           Ok (if Qlt_bool 0 t then [Finite (1 # 5); Finite (4 # 5)]
               else [Finite (9 # 10); Finite (1 # 10)])
       | _ => Ok [Finite (1 # 2); Finite (1 # 2)]
       end |}.

(** The numbers of a row; [ValueError] when an entry is not a number. *)
Fixpoint as_numbers (row : list value) : result (list num) :=
  match row with
  | [] => Ok []
  | VNum x :: rest => xs ← as_numbers rest; Ok (x :: xs)
  | _ :: _ => Err ValueError
  end.

(** Centres the engine temperature on 110 and passes the rest through. *)
Definition sample_scaler : Scaler :=
  {| transform := λ row,
       xs ← as_numbers row;
       match xs with
       | Finite t :: rest => Ok (Finite (t - 110) :: rest)
       | _ => Ok xs
       end |}.

(** The two class names; [ValueError] on an index that is none of theirs. *)
Definition sample_encoder : LabelEncoder :=
  {| inverse_transform := λ i,
       match ["Normal"; "Engine Overheating"] !! i with
       | Some label => Ok label
       | None => Err ValueError
       end |}.

Definition sample_assets : ModelAssets :=
  {| model := Some sample_model;
     scaler := Some sample_scaler;
     encoder := Some sample_encoder;
     training_columns :=
       Some ["engine_temp_c"; "oil_pressure_kpa";
             "temp_pressure_ratio"; "total_brake_wear"] |}.

(** The same assets with the scaler file missing. *)
Definition assets_no_scaler : ModelAssets :=
  {| model := Some sample_model;
     scaler := None;
     encoder := Some sample_encoder;
     training_columns := training_columns sample_assets |}.


(** ** Further parts of the page code *)

(** The label of a rule when its condition holds, nothing otherwise. *)
Definition alert_if (b : bool) (label : string) : list string :=
  if b then [label] else [].

(** The rules in front of the first one whose condition raises. *)
Fixpoint before_first_error (rules : list (result bool * string))
  : list (result bool * string) :=
  match rules with
  | (Ok b, label) :: rules' => (Ok b, label) :: before_first_error rules'
  | _ => []
  end.

(** The nine rules that read one key: the key and the label. *)
Definition single_key_rules : list (string * string) :=
  [ ("odometer_km", "Maintenance Due / High Mileage Warning");
    ("engine_temp_c", "Engine Overheating");
    ("battery_voltage_v", "Battery Failure");
    ("oil_pressure_kpa", "Low Oil Pressure Warning");
    ("suspension_health_pct", "Suspension Failure Risk");
    ("tire_pressure_psi_fl", "Low Tire Pressure");
    ("coolant_level_pct", "Coolant Critically Low");
    ("brake_fluid_level_pct", "Brake Fluid Critically Low");
    ("transmission_fluid_temp_c", "Transmission Overheating") ].

(** The dictionary the Dashboard stores under "diagnosis_input" when
    "Run Diagnosis" is pressed (lines 795-809): the five widget values, the
    front pad wear for the rear pads too, and fixed values for the rest. The
    four sliders give numbers; the odometer input starts from the car's
    stored odometer, which the table allows to be NULL, so it is a value. *)
Definition diagnosis_input (selected_car odometer_km : value)
    (engine_temp_c battery_voltage_v oil_pressure_kpa brake_wear_front : num)
    : gmap string value :=
  list_to_map
    [ ("car", selected_car);
      ("odometer_km", odometer_km);
      ("engine_temp_c", VNum engine_temp_c);
      ("battery_voltage_v", VNum battery_voltage_v);
      ("oil_pressure_kpa", VNum oil_pressure_kpa);
      ("brake_pad_wear_mm_front", VNum brake_wear_front);
      ("brake_pad_wear_mm_rear", VNum brake_wear_front);
      ("suspension_health_pct", VNum (int 85));
      ("coolant_level_pct", VNum (int 95));
      ("brake_fluid_level_pct", VNum (int 95));
      ("fuel_level_pct", VNum (int 70));
      ("transmission_fluid_temp_c", VNum (int 85));
      ("tire_pressure_psi_fl", VNum (int 32)) ].

(** A classifier whose second class probability is [nan], and the sample
    assets with it in place of the model. *)
Definition nan_model : Classifier :=
  {| predict := λ _, Ok 1%nat;
     predict_proba := λ _, Ok [Finite (1 # 5); NaN] |}.

Definition assets_nan_model : ModelAssets :=
  {| model := Some nan_model;
     scaler := scaler sample_assets;
     encoder := encoder sample_assets;
     training_columns := training_columns sample_assets |}.

(** The keys [predict_failure] reads from a reading: the four inputs of the
    engineered features and the training columns. *)
Definition keys_read (assets : ModelAssets) : list string :=
  ["engine_temp_c"; "oil_pressure_kpa";
   "brake_pad_wear_mm_front"; "brake_pad_wear_mm_rear"]
  ++ default [] (training_columns assets).

(** The one-row frame after the two feature assignments of lines 341-348,
    as [predict_failure] builds it. *)
Definition engineered_frame (series_add series_truediv : value → value → result value)
    (input_data : gmap string value) : gmap string value :=
  let input_df :=
    <["temp_pressure_ratio" :=
        try_or (temp_pressure_ratio series_add series_truediv input_data)
          (VNum float_0)]> input_data in
  <["total_brake_wear" :=
      try_or (total_brake_wear series_add input_df) (VNum float_0)]> input_df.

(** ** Session state and the sidebar (lines 176-190 and 364-403)

    [st.session_state] with the keys the script writes, each absent or
    holding a value of the one type the script stores under it. *)

Record session : Type := {
  ss_logged_in : option bool;
  ss_current_user : option string;
  ss_full_name : option string;
  ss_page : option string;
  ss_submissions : option (list (string * string * string));
  ss_diagnosis_input : option (gmap string value)
}.

(** A fresh browser session. *)
Definition empty_session : session :=
  {| ss_logged_in := None; ss_current_user := None; ss_full_name := None;
     ss_page := None; ss_submissions := None; ss_diagnosis_input := None |}.

Definition set_page (p : string) (s : session) : session :=
  {| ss_logged_in := ss_logged_in s; ss_current_user := ss_current_user s;
     ss_full_name := ss_full_name s; ss_page := Some p;
     ss_submissions := ss_submissions s;
     ss_diagnosis_input := ss_diagnosis_input s |}.

(** [current_user()] *)
Definition current_user (s : session) : option string := ss_current_user s.

(** Truth value of [current_user()]: [None] and the empty string are false. *)
Definition truthy_str (o : option string) : bool :=
  match o with
  | Some s => negb (String.eqb s "")
  | None => false
  end.

(** How a run of the script ends: it reaches the end, or [st.rerun()] stops
    it and starts the next run; either way the session state is kept. *)
Inductive run (A : Type) : Type :=
  | Continue (s : A)
  | Rerun (s : A).
Arguments Continue {A} s.
Arguments Rerun {A} s.

Definition state_of {A : Type} (r : run A) : A :=
  match r with
  | Continue s | Rerun s => s
  end.

(** [login_user(username, full_name)] (lines 179-184) *)
Definition login_user (username full_name : string) (s : session) : run session :=
  Rerun {| ss_logged_in := Some true; ss_current_user := Some username;
           ss_full_name := Some full_name; ss_page := Some "Dashboard";
           ss_submissions := ss_submissions s;
           ss_diagnosis_input := ss_diagnosis_input s |}.

(** [logout_user()] (lines 186-190): the two [pop]s, the page, the rerun. *)
Definition logout_user (s : session) : run session :=
  Rerun {| ss_logged_in := ss_logged_in s; ss_current_user := None;
           ss_full_name := None; ss_page := Some "Home";
           ss_submissions := ss_submissions s;
           ss_diagnosis_input := ss_diagnosis_input s |}.

Definition logged_in_pages : list string :=
  ["Dashboard"; "Profile"; "Detailed Analysis"; "Live Fleet Monitoring";
   "Contact Us"].

Definition logged_out_pages : list string := ["Home"; "Log In"; "Sign Up"].

(** [st.session_state.get("page") not in available_pages]: an absent page is
    [None], which is in no list of strings. *)
Definition page_not_in (page : option string) (available : list string) : bool :=
  match page with
  | Some p => py_not_in p available
  | None => true
  end.

(** [xs.index(x)]: the first position of [x], [ValueError] when absent. *)
Fixpoint list_index (x : string) (xs : list string) : result nat :=
  match xs with
  | [] => Err ValueError
  | y :: ys =>
      if String.eqb x y then Ok 0%nat else i ← list_index x ys; Ok (S i)
  end.

(** [st.session_state.page]: attribute access raises when the key is absent. *)
Definition page_attr (s : session) : result string :=
  match ss_page s with
  | Some p => Ok p
  | None => Err AttributeError
  end.

(** Lines 395-403: the radio and the page switch. [radio options index] is
    the option the widget returns. *)
Definition sidebar_radio (radio : list string → nat → string)
    (available_pages : list string) (s : session) : result (run session) :=
  page ← page_attr s;
  index ← list_index page available_pages;
  let selected_page := radio available_pages index in
  if negb (String.eqb selected_page page)
  then Ok (Rerun (set_page selected_page s))
  else Ok (Continue s).

(** Lines 368-403. [logout_clicked] is what the "Logout" button returns. *)
Definition sidebar (logout_clicked : bool) (radio : list string → nat → string)
    (s : session) : result (run session) :=
  if truthy_str (current_user s) then
    if logout_clicked then Ok (logout_user s)
    else
      let available_pages := logged_in_pages in
      let s := if page_not_in (ss_page s) available_pages
               then set_page "Dashboard" s else s in
      sidebar_radio radio available_pages s
  else
    let available_pages := logged_out_pages in
    let s := if page_not_in (ss_page s) available_pages
             then set_page "Home" s else s in
    let s := match ss_submissions s with
             | None =>
                 {| ss_logged_in := ss_logged_in s;
                    ss_current_user := ss_current_user s;
                    ss_full_name := ss_full_name s; ss_page := ss_page s;
                    ss_submissions := Some [];
                    ss_diagnosis_input := ss_diagnosis_input s |}
             | Some _ => s
             end in
    sidebar_radio radio available_pages s.

(** The pages the session may be on, by login state. *)
Definition pages_for (s : session) : list string :=
  if truthy_str (current_user s) then logged_in_pages else logged_out_pages.

(** A radio left alone: it returns the option at [index]. *)
Definition radio_default (options : list string) (index : nat) : string :=
  nth index options "".

(** A radio on which the visitor picks [choice]. *)
Definition radio_pick (choice : string) (options : list string) (index : nat)
  : string := choice.

(** ** The database functions (lines 45-174)

    The tables of [init_db] as finite maps: [users] keyed by the UNIQUE
    username, [cars] keyed by the car_id primary key, each with the counter of
    its SERIAL column. Every statement runs in autocommit mode, so a function
    maps the database to the database after it. Text arguments are taken to
    fit their columns; an integer that does not fit the 32-bit INTEGER column
    it is written to makes the statement raise and store nothing. *)

Record user_row : Type := {
  user_id : nat;
  password_hash : string;
  user_full_name : string;
  user_email : string;
  user_mobile : string
}.

Record car_row : Type := {
  car_user_id : nat;
  car_make : string;
  car_model : string;
  car_year : Z;
  car_odometer : Z
}.

Record database : Type := {
  users : gmap string user_row;
  users_seq : nat;
  cars : gmap nat car_row;
  cars_seq : nat
}.

(** The tables right after [init_db] on an empty database. *)
Definition empty_database : database :=
  {| users := ∅; users_seq := 1; cars := ∅; cars_seq := 1 |}.

(** The dictionary [get_cars_for_user] builds for a row. *)
Record car : Type := {
  car_id : nat;
  make : string;
  car_model_name : string;
  year : Z;
  odometer : Z
}.

(** What the database functions raise to their caller: the [TypeError] of
    subscripting the [None] that [fetchone] returns when no row matches, and
    the [NumericValueOutOfRange] of an INSERT or UPDATE that is given an
    integer outside the range of an INTEGER column. *)
Inductive db_result (A : Type) : Type :=
  | DbOk (a : A)
  | DbTypeError
  | DbOutOfRange.
Arguments DbOk {A} a.
Arguments DbTypeError {A}.
Arguments DbOutOfRange {A}.

(** The range of the INTEGER columns [year] and [odometer]. *)
Definition int4 (z : Z) : bool :=
  (-2147483648 <=? z)%Z && (z <=? 2147483647)%Z.

Section Persistence.
(** [hashlib.sha256(pw.encode()).hexdigest()] *)
Variable sha256_hex : string → string.
(** The row order of [ORDER BY make, model] under the database collation. *)
Variable order_by_make_model : list (nat * car_row) → list (nat * car_row).

Definition hash_password (pw : string) : string := sha256_hex pw.

(** [create_user] (lines 86-96): the INSERT draws a user_id from the
    sequence, then fails on a taken username with [IntegrityError], which the
    function turns into its second answer. *)
Definition create_user (username pw full email mobile : string) (db : database)
  : (bool * string) * database :=
  let pw_hash := hash_password pw in
  match users db !! username with
  | None =>
      ((true, "User created successfully"),
       {| users := <[username := {| user_id := users_seq db;
                                    password_hash := pw_hash;
                                    user_full_name := full;
                                    user_email := email;
                                    user_mobile := mobile |}]> (users db);
          users_seq := S (users_seq db);
          cars := cars db; cars_seq := cars_seq db |})
  | Some _ =>
      ((false, "Username already exists"),
       {| users := users db; users_seq := S (users_seq db);
          cars := cars db; cars_seq := cars_seq db |})
  end.

(** [authenticate] (lines 98-107) *)
Definition authenticate (username pw : string) (db : database)
  : bool * option string :=
  match users db !! username with
  | Some result =>
      if String.eqb (password_hash result) (hash_password pw)
      then (true, Some (user_full_name result))
      else (false, None)
  | None => (false, None)
  end.

(** [get_user_by_username] (lines 109-115): full name, email and mobile. *)
Definition get_user_by_username (username : string) (db : database)
  : option (string * string * string) :=
  match users db !! username with
  | Some result =>
      Some (user_full_name result, user_email result, user_mobile result)
  | None => None
  end.

(** [update_user_profile] (lines 117-122) *)
Definition update_user_profile (username full_name email mobile : string)
    (db : database) : database :=
  {| users := alter (λ row, {| user_id := user_id row;
                               password_hash := password_hash row;
                               user_full_name := full_name;
                               user_email := email;
                               user_mobile := mobile |}) username (users db);
     users_seq := users_seq db; cars := cars db; cars_seq := cars_seq db |}.

(** [SELECT user_id FROM users WHERE username = %s], then
    [cursor.fetchone()[0]]. *)
Definition select_user_id (username : string) (db : database) : db_result nat :=
  match users db !! username with
  | Some row => DbOk (user_id row)
  | None => DbTypeError
  end.

(** [add_car] (lines 124-131): the SELECT and its subscript first, then the
    INSERT, which raises when [year] or [odometer] is out of range. *)
Definition add_car (username make model : string) (year odometer : Z)
    (db : database) : db_result database :=
  match select_user_id username db with
  | DbOk user_id =>
      if int4 year && int4 odometer then
        DbOk {| users := users db; users_seq := users_seq db;
                cars := <[cars_seq db := {| car_user_id := user_id;
                                            car_make := make;
                                            car_model := model;
                                            car_year := year;
                                            car_odometer := odometer |}]> (cars db);
                cars_seq := S (cars_seq db) |}
      else DbOutOfRange
  | DbTypeError => DbTypeError
  | DbOutOfRange => DbOutOfRange
  end.

Definition car_of_row (c : nat * car_row) : car :=
  {| car_id := c.1; make := car_make c.2; car_model_name := car_model c.2;
     year := car_year c.2; odometer := car_odometer c.2 |}.

(** [get_cars_for_user] (lines 133-142) *)
Definition get_cars_for_user (username : string) (db : database)
  : db_result (list car) :=
  match select_user_id username db with
  | DbOk user_id =>
      let cars :=
        order_by_make_model
          (filter (λ c, car_user_id c.2 = user_id) (map_to_list (cars db))) in
      DbOk (car_of_row <$> cars)
  | DbTypeError => DbTypeError
  | DbOutOfRange => DbOutOfRange
  end.

(** [update_car] (lines 165-170): the UPDATE raises when [year] or
    [odometer] is out of range, whether or not a row has that car_id. *)
Definition update_car (car_id : nat) (make model : string) (year odometer : Z)
    (db : database) : db_result database :=
  if int4 year && int4 odometer then
    DbOk {| users := users db; users_seq := users_seq db;
            cars := alter (λ row, {| car_user_id := car_user_id row;
                                     car_make := make; car_model := model;
                                     car_year := year;
                                     car_odometer := odometer |})
                      car_id (cars db);
            cars_seq := cars_seq db |}
  else DbOutOfRange.

(** [delete_car] (lines 172-174) *)
Definition delete_car (car_id : nat) (db : database) : database :=
  {| users := users db; users_seq := users_seq db;
     cars := delete car_id (cars db); cars_seq := cars_seq db |}.
End Persistence.

(** What the schema and the sequences guarantee: ids were drawn from the
    sequences, no two users share an id, and every car belongs to a user. *)
Definition db_consistent (db : database) : Prop :=
  (∀ u row, users db !! u = Some row → (user_id row < users_seq db)%nat) ∧
  (∀ u1 u2 r1 r2, users db !! u1 = Some r1 → users db !! u2 = Some r2 →
                  user_id r1 = user_id r2 → u1 = u2) ∧
  (∀ id row, cars db !! id = Some row → (id < cars_seq db)%nat) ∧
  (∀ id row, cars db !! id = Some row →
             ∃ u urow, users db !! u = Some urow ∧ user_id urow = car_user_id row).

(** The cars in an answer of [get_cars_for_user]; none when it raised. *)
Definition cars_listed (answer : db_result (list car)) : list car :=
  match answer with
  | DbOk l => l
  | DbTypeError | DbOutOfRange => []
  end.

(** A database with two users and one car, and the order of the table as
    row order. *)
Definition sample_sha (pw : string) : string := "sha:" +:+ pw.

Definition sample_database : database :=
  {| users :=
       {[ "asha" := {| user_id := 1; password_hash := sample_sha "s3cret";
                       user_full_name := "Asha Rao";
                       user_email := "asha@example.com";
                       user_mobile := "+91 9876543210" |};
          "ben" := {| user_id := 2; password_hash := sample_sha "hunter2";
                      user_full_name := "Ben Ito";
                      user_email := "ben@example.com";
                      user_mobile := "9876543210" |} ]};
     users_seq := 3;
     cars := {[ 1%nat := {| car_user_id := 1; car_make := "Toyota";
                            car_model := "Corolla"; car_year := 2015;
                            car_odometer := 50000 |} ]};
     cars_seq := 2 |}.

Definition table_order (rows : list (nat * car_row)) : list (nat * car_row) :=
  rows.

(** ** The Sign Up and Log In forms (lines 607-625 and 639-648) *)

(** Truth value of a string: only the empty string is false. *)
Definition nonempty (x : string) : bool := negb (String.eqb x "").

(** What a submitted form shows. *)
Inductive notice : Type :=
  | FillAllFields
  | InvalidEmail
  | InvalidMobile
  | PasswordsDoNotMatch
  | AccountCreated
  | SignupRefused (msg : string)
  | EnterBoth
  | Welcome (full_name : string)
  | InvalidLogin.

Definition email_pattern : string := "[^@]+@[^@]+\.[^@]+".
Definition mobile_pattern : string := "^\+?[0-9\s-]{10,18}$".

Section Forms.
Variable sha256_hex : string → string.
(** [re.match(pattern, text)] as a truth value. *)
Variable re_match : string → string → bool.

(** The body of [if submitted:] on the Sign Up page. *)
Definition signup_submit (full_name email mobile username password password2 : string)
    (db : database) (s : session) : notice * run session * database :=
  if negb (nonempty username && nonempty password && nonempty full_name
           && nonempty email && nonempty mobile)
  then (FillAllFields, Continue s, db)
  else if negb (re_match email_pattern email)
  then (InvalidEmail, Continue s, db)
  else if negb (re_match mobile_pattern mobile)
  then (InvalidMobile, Continue s, db)
  else if negb (String.eqb password password2)
  then (PasswordsDoNotMatch, Continue s, db)
  else
    let '((ok, msg), db) :=
      create_user sha256_hex username password full_name email mobile db in
    if ok then (AccountCreated, Rerun (set_page "Log In" s), db)
    else (SignupRefused msg, Continue s, db).

(** The body of [if submitted:] on the Log In page. *)
Definition login_submit (username password : string) (db : database)
    (s : session) : notice * run session :=
  if negb (nonempty username && nonempty password)
  then (EnterBoth, Continue s)
  else
    match authenticate sha256_hex username password db with
    | (true, Some full_name) => (Welcome full_name, login_user username full_name s)
    | _ => (InvalidLogin, Continue s)
    end.
End Forms.

(** A matcher that accepts every text, for sample runs of the forms. *)
Definition accept_all (pattern text : string) : bool := true.

(** * Properties *)

(** ** The rule evaluator runs its table *)

Lemma stmt_seq_py_if cond label (rest : stmt) alerts :
  (py_if cond (alerts_append label) ;; rest)%stmt alerts =
  match cond with
  | Ok b => rest (if b then alerts ++ [label] else alerts)
  | Err e => (alerts, Err e)
  end.
Proof. unfold stmt_seq, py_if, alerts_append. by destruct cond as [[]|]. Qed.

Lemma py_if_last cond label alerts :
  (py_if cond (alerts_append label) alerts).1 =
  match cond with
  | Ok b => if b then alerts ++ [label] else alerts
  | Err e => alerts
  end.
Proof. unfold py_if, alerts_append. by destruct cond as [[]|]. Qed.

Lemma check_custom_rules_table data :
  check_custom_rules data = Ok (run_rules (rule_table data) []).
Proof.
  unfold check_custom_rules.
  transitivity (Ok (A:=list string) (rules_try_body data []).1).
  { by destruct (rules_try_body data []) as [? []]. }
  f_equal. unfold rules_try_body, rule_table.
  generalize (@nil string).
  repeat (intros ?; rewrite stmt_seq_py_if; cbn [run_rules];
          match goal with
          | |- context [match ?c with Ok _ => _ | Err _ => _ end] =>
              destruct c as [?|?]; [|reflexivity]
          end;
          match goal with
          | |- (_ ?a).1 = _ => generalize a
          end).
  intros ?. rewrite py_if_last. cbn [run_rules].
  by destruct (cond_transmission data).
Qed.

Lemma rule_table_labels data : (rule_table data).*2 = alert_labels.
Proof. reflexivity. Qed.

Lemma alert_labels_NoDup : NoDup alert_labels.
Proof. refine (bool_decide_unpack _ _). by vm_compute. Qed.

Lemma run_rules_app rules alerts :
  run_rules rules alerts = alerts ++ run_rules rules [].
Proof.
  revert alerts. induction rules as [|[cond label] rules IH]; intros alerts.
  - by rewrite app_nil_r.
  - cbn [run_rules]. destruct cond as [[]|].
    + rewrite IH, (IH ([] ++ [label])). by rewrite <- app_assoc.
    + apply IH.
    + by rewrite app_nil_r.
Qed.

Lemma run_rules_sublist rules : run_rules rules [] `sublist_of` rules.*2.
Proof.
  induction rules as [|[cond label] rules IH]; [done|].
  cbn [run_rules]. destruct cond as [[]|]; cbn.
  - rewrite run_rules_app. by apply sublist_skip.
  - by apply sublist_cons.
  - apply sublist_nil_l.
Qed.

Lemma run_rules_elem rules label :
  label ∈ run_rules rules [] → (Ok true, label) ∈ rules.
Proof.
  induction rules as [|[cond label'] rules IH]; cbn [run_rules].
  - by intros ?%elem_of_nil.
  - destruct cond as [[]|].
    + rewrite run_rules_app. cbn. intros [->|?]%elem_of_cons.
      * left.
      * right. by apply IH.
    + intros ?. right. by apply IH.
    + by intros ?%elem_of_nil.
Qed.

(** Where no condition raises, the evaluator does what the per-rule reading
    asks for. *)
Lemma run_rules_no_error rules :
  Forall (λ r, ∃ b, r.1 = Ok b) rules → run_rules rules [] = fired_labels rules.
Proof.
  induction 1 as [|[cond label] rules [b Hb] _ IH]; [done|].
  cbn in Hb. subst cond. cbn [run_rules fired_labels].
  destruct b; [|done]. by rewrite run_rules_app, IH.
Qed.

Lemma check_custom_rules_no_error data :
  Forall (λ r, ∃ b, r.1 = Ok b) (rule_table data) →
  check_custom_rules data = Ok (spec_rules_checked_independently data).
Proof.
  intros Hok. rewrite check_custom_rules_table.
  unfold spec_rules_checked_independently. by rewrite run_rules_no_error.
Qed.

(** At the first condition that raises, the rest of the table is dropped. *)
Lemma run_rules_first_error before e label after :
  Forall (λ r, ∃ b, r.1 = Ok b) before →
  run_rules (before ++ (Err e, label) :: after) [] = fired_labels before.
Proof.
  induction 1 as [|[cond label'] rules [b Hb] _ IH]; [done|].
  cbn in Hb. subst cond. cbn [app run_rules fired_labels].
  destruct b; [|done]. by rewrite run_rules_app, IH.
Qed.

(** ** Comparisons *)

Lemma num_le_not_lt x y : num_le x y = true → num_lt y x = false.
Proof.
  destruct x, y; cbn; try done.
  unfold Qlt_bool. by intros ->.
Qed.

Lemma num_lt_Qeq a b c : (a == b)%Q → num_lt (Finite a) (Finite c) = num_lt (Finite b) (Finite c).
Proof.
  intros Hab. cbn. unfold Qlt_bool. f_equal.
  apply eq_true_iff_eq. rewrite !Qle_bool_iff. by rewrite Hab.
Qed.

(** ** Sample runs of the rule evaluator *)

Example check_healthy : check_custom_rules healthy_vitals = Ok [].
Proof. by vm_compute. Qed.

Example check_overheating :
  check_custom_rules overheating_vitals = Ok ["Engine Overheating"].
Proof. by vm_compute. Qed.

Example check_high_mileage :
  check_custom_rules high_mileage_vitals
  = Ok ["Maintenance Due / High Mileage Warning"].
Proof. by vm_compute. Qed.

Example check_empty : check_custom_rules ∅ = Ok [].
Proof. by vm_compute. Qed.

Example check_string_reading :
  check_custom_rules (<["battery_voltage_v" := VStr "low"]> high_mileage_vitals)
  = Ok ["Maintenance Due / High Mileage Warning"].
Proof. by vm_compute. Qed.

(** ** Claims about the rule evaluator *)

(** C1 (the code departs from the claim): with "odometer_km" absent and an
    engine temperature of 115, the rule for "engine_temp_c" has its input and
    its condition holds, and checking each rule on its own yields
    "Engine Overheating"; yet [check_custom_rules] returns the empty list,
    because the [KeyError] of the first check leaves the whole [try] body.
    No exception reaches the caller. *)
Theorem C1_missing_key_drops_later_checks :
  overheating_no_odometer !! "odometer_km" = None ∧
  cond_engine_temp overheating_no_odometer = Ok true ∧
  spec_rules_checked_independently overheating_no_odometer
    = ["Engine Overheating"] ∧
  check_custom_rules overheating_no_odometer = Ok [].
Proof. by vm_compute. Qed.

Local Ltac within_cases H :=
  repeat match type of H with
         | (_ && _) = true => apply andb_prop in H as [H ?]
         end;
  repeat match goal with
         | H' : within _ _ _ = true |- _ =>
             unfold within in H';
             match type of H' with
             | context [?d !! ?k] =>
                 let E := fresh "E" in
                 destruct (d !! k) as [[?| | |]|] eqn:E; try discriminate H'
             end
         end.

(** C5: a reading that has every monitored key with its value inside the
    safe band gets an empty alert list from [check_custom_rules]. *)
Theorem C5_safe_bands_no_alert (data : gmap string value) :
  all_within_safe_bands data = true →
  check_custom_rules data = Ok [].
Proof.
  intros H. unfold all_within_safe_bands in H. within_cases H.
  rewrite check_custom_rules_table. f_equal.
  unfold rule_table, cond_odometer, cond_engine_temp, cond_battery,
    cond_oil_pressure, cond_brake_pads, cond_suspension, cond_tire_pressure,
    cond_coolant, cond_brake_fluid, cond_transmission, getitem, dict_get.
  repeat match goal with E : _ !! _ = Some _ |- _ => rewrite E; clear E end.
  unfold num_ge in *. cbn -[num_lt int]. unfold num_gt.
  repeat match goal with
         | H' : num_le _ _ = true |- _ =>
             apply num_le_not_lt in H'; rewrite H'; clear H'
         end.
  reflexivity.
Qed.

Lemma C5_safe_bands_no_alert_witness :
  all_within_safe_bands healthy_vitals = true ∧
  check_custom_rules healthy_vitals = Ok [].
Proof.
  split; [by vm_compute|].
  apply (C5_safe_bands_no_alert healthy_vitals). by vm_compute.
Defined.

(** C6: when "brake_pad_wear_mm_rear" is absent and the front pads are at 8,
    [check_custom_rules] never reports "Brake Pads Critically Worn": the rear
    default 3 is not below 3, and neither is 8. *)
Theorem C6_rear_default_no_brake_alert (data : gmap string value) (q : Q) :
  data !! "brake_pad_wear_mm_rear" = None →
  data !! "brake_pad_wear_mm_front" = Some (VNum (Finite q)) →
  (q == 8)%Q →
  ∃ alerts, check_custom_rules data = Ok alerts ∧
            "Brake Pads Critically Worn" ∉ alerts.
Proof.
  intros Hrear Hfront Hq. eexists. split; [apply check_custom_rules_table|].
  intros Hin%run_rules_elem.
  assert (cond_brake_pads data = Ok false) as Hcond.
  { unfold cond_brake_pads, getitem, dict_get. rewrite Hrear, Hfront.
    cbn -[num_lt]. unfold int. by rewrite (num_lt_Qeq q 8 _ Hq). }
  unfold rule_table in Hin. rewrite Hcond in Hin.
  repeat (apply elem_of_cons in Hin as [Hin|Hin]; [discriminate Hin|]).
  by apply elem_of_nil in Hin.
Qed.

Lemma C6_rear_default_no_brake_alert_witness :
  ∃ alerts, check_custom_rules no_rear_pad_vitals = Ok alerts ∧
            "Brake Pads Critically Worn" ∉ alerts.
Proof.
  apply (C6_rear_default_no_brake_alert no_rear_pad_vitals 8);
    [by vm_compute | by vm_compute | reflexivity].
Defined.

(** C10: on any mapping at all [check_custom_rules] returns a list (no
    exception leaves it), the list is drawn in order from the ten fixed
    labels, so each element is one of them, and no label occurs twice. *)
Theorem C10_alerts_from_fixed_labels_nodup (data : gmap string value) :
  ∃ alerts, check_custom_rules data = Ok alerts ∧
            alerts `sublist_of` alert_labels ∧
            (∀ label, label ∈ alerts → label ∈ alert_labels) ∧
            NoDup alerts.
Proof.
  exists (run_rules (rule_table data) []).
  pose proof (run_rules_sublist (rule_table data)) as Hsub.
  rewrite rule_table_labels in Hsub.
  split_and!.
  - apply check_custom_rules_table.
  - done.
  - intros label Hin. by eapply elem_of_sublist.
  - eapply sublist_NoDup; [apply alert_labels_NoDup|done].
Qed.

(** ** Claims about the fusion *)

Lemma py_not_in_sentinels label :
  py_not_in label ["None"; "Normal"] = true ↔ label ≠ "None" ∧ label ≠ "Normal".
Proof.
  unfold py_not_in. rewrite negb_true_iff, bool_decide_eq_false.
  rewrite !elem_of_cons, elem_of_nil. naive_solver.
Qed.

Lemma elem_of_all_alerts rule_alerts label confidence x :
  x ∈ all_alerts rule_alerts label confidence ↔
  x ∈ rule_alerts ∨
  (x = label ∧ label ≠ "None" ∧ label ≠ "Normal" ∧
   num_ge confidence (int 50) = true).
Proof.
  unfold all_alerts.
  destruct (py_not_in label ["None"; "Normal"]) eqn:Hlabel.
  - apply py_not_in_sentinels in Hlabel.
    destruct (num_ge confidence (int 50)); cbn [andb];
      rewrite ?elem_of_union, ?elem_of_singleton, elem_of_list_to_set;
      naive_solver.
  - assert (¬ (label ≠ "None" ∧ label ≠ "Normal")) as Hnot.
    { rewrite <- py_not_in_sentinels. by rewrite Hlabel. }
    cbn [andb]. rewrite elem_of_list_to_set. naive_solver.
Qed.

(** C2: the fused set holds exactly the rule alerts, plus the predicted
    label when and only when the label is neither "None" nor "Normal" and the
    confidence is at least 50; a confidence of exactly 50.0 is enough; the
    result is a set, so listing it never shows a label twice, and adding a
    label the rules already raised changes nothing. *)
Theorem C2_fused_alert_set (rule_alerts : list string) (label : string)
    (confidence : num) :
  (∀ x, x ∈ all_alerts rule_alerts label confidence ↔
        x ∈ rule_alerts ∨
        (x = label ∧ label ≠ "None" ∧ label ≠ "Normal" ∧
         num_ge confidence (int 50) = true)) ∧
  all_alerts rule_alerts label confidence
    = (if bool_decide (label ≠ "None" ∧ label ≠ "Normal")
          && num_ge confidence (int 50)
       then list_to_set rule_alerts ∪ {[label]}
       else list_to_set rule_alerts) ∧
  (label ≠ "None" ∧ label ≠ "Normal" ↔
   label ∈ all_alerts [] label (Finite 50)) ∧
  NoDup (elements (all_alerts rule_alerts label confidence)) ∧
  (label ∈ rule_alerts →
   all_alerts rule_alerts label confidence = list_to_set rule_alerts).
Proof.
  split_and!.
  - intros x. apply elem_of_all_alerts.
  - apply set_eq. intros x. rewrite elem_of_all_alerts.
    case_bool_decide as Hlabel; destruct (num_ge confidence (int 50));
      cbn [andb];
      rewrite ?elem_of_union, ?elem_of_singleton, elem_of_list_to_set;
      naive_solver.
  - rewrite elem_of_all_alerts. split.
    + intros [??]. right. by split_and!.
    + intros [[]%elem_of_nil|(_ & ? & ? & _)]. done.
  - apply NoDup_elements.
  - intros Hin. apply set_eq. intros x.
    rewrite elem_of_all_alerts, elem_of_list_to_set. naive_solver.
Qed.

(** C9: every rule alert is in the fused set; fusion only ever adds. *)
Theorem C9_fusion_keeps_rule_alerts (rule_alerts : list string)
    (label : string) (confidence : num) :
  (list_to_set rule_alerts : gset string)
    ⊆ all_alerts rule_alerts label confidence.
Proof.
  intros x Hx. apply elem_of_all_alerts. left. by apply elem_of_list_to_set in Hx.
Qed.

(** C7: the verdict carries the confidence of the prediction unchanged, and
    the one metric the page shows is fed that same number, under either
    heading: whether the label was added or not, whether the fused set is
    empty or not. *)
Theorem C7_verdict_confidence_is_raw (rule_alerts : list string)
    (label : string) (confidence : num) (proba : option (list num)) :
  let v := fuse rule_alerts (label, confidence, proba) in
  verdict_confidence v = confidence ∧
  (∃ heading, st_metric heading confidence ∈ render_verdict v) ∧
  (∀ heading shown, st_metric heading shown ∈ render_verdict v ↔
     shown = confidence ∧
     heading = (if bool_decide (verdict_alerts v ≠ ∅)
                then "Prediction Confidence"
                else "Confidence in Normal Status")).
Proof.
  intros v.
  assert (∀ heading shown, st_metric heading shown ∈ render_verdict v ↔
     shown = confidence ∧
     heading = (if bool_decide (verdict_alerts v ≠ ∅)
                then "Prediction Confidence"
                else "Confidence in Normal Status")) as Hmetric.
  { intros heading shown. unfold render_verdict.
    change (verdict_confidence v) with confidence.
    destruct (bool_decide (verdict_alerts v ≠ ∅)).
    - rewrite !elem_of_app, list_elem_of_fmap, list_elem_of_singleton.
      destruct (bool_decide (1 < size (verdict_alerts v))%nat);
        rewrite ?list_elem_of_singleton, ?elem_of_nil; naive_solver.
    - rewrite !elem_of_cons, elem_of_nil. naive_solver. }
  split_and!; [done| |done].
  eexists. by apply Hmetric.
Qed.

(** ** Sample runs of the adapter *)

Example predict_overheating :
  predict_failure sample_add sample_truediv exact_round sample_assets
    overheating_vitals
  = Ok ("Engine Overheating", Finite 80,
        Some [Finite (1 # 5); Finite (4 # 5)]).
Proof. by vm_compute. Qed.

Example predict_healthy :
  predict_failure sample_add sample_truediv exact_round sample_assets
    healthy_vitals
  = Ok ("Normal", Finite 90, Some [Finite (9 # 10); Finite (1 # 10)]).
Proof. by vm_compute. Qed.

Example predict_empty_reading :
  predict_failure sample_add sample_truediv exact_round sample_assets ∅
  = Ok ("Normal", Finite 90, Some [Finite (9 # 10); Finite (1 # 10)]).
Proof. by vm_compute. Qed.

Example predict_no_scaler :
  predict_failure sample_add sample_truediv exact_round assets_no_scaler
    overheating_vitals
  = Ok ("Model not loaded", int 0, None).
Proof. by vm_compute. Qed.

(** ** Claims about the adapter and the whole diagnosis *)




Section AdapterClaims.
Variable series_add series_truediv : value → value → result value.
Variable round64 : Q → num.

(** Rounding to nearest is monotone, and integers up to 2^53 are binary64
    numbers. *)
Hypothesis round64_monotone :
  ∀ a b, (a <= b)%Q → num_le (round64 a) (round64 b) = true.
Hypothesis round64_exact_int :
  ∀ z, (Z.abs z <= 2 ^ 53)%Z → round64 (inject_Z z) = Finite (inject_Z z).


(** C3: as soon as one of the four assets is [None], [predict_failure]
    returns the sentinel ("Model not loaded", 0, None), whatever the
    reading; it returns, it does not raise. *)
Theorem C3_unavailable_assets_sentinel (assets : ModelAssets)
    (input_data : gmap string value) :
  model assets = None ∨ scaler assets = None ∨ encoder assets = None ∨
    training_columns assets = None →
  predict_failure series_add series_truediv round64 assets input_data
  = Ok ("Model not loaded", int 0, None).
Proof using Type.
  unfold predict_failure.
  destruct assets as [[m|] [s|] [e|] [cols|]]; cbn; naive_solver.
Qed.

(** C4: the high-mileage reading of the scenario, diagnosed with no model
    assets, gives the alert set {"Maintenance Due / High Mileage Warning"}
    and confidence 0 (and no probability distribution). *)
Theorem C4_high_mileage_without_model :
  run_diagnosis series_add series_truediv round64 assets_not_found
    high_mileage_vitals
  = Ok {| verdict_alerts := {["Maintenance Due / High Mileage Warning"]};
          verdict_confidence := int 0;
          verdict_proba := None |}.
Proof using Type. by vm_compute. Qed.

End AdapterClaims.

Lemma exact_round_monotone a b :
  (a <= b)%Q → num_le (exact_round a) (exact_round b) = true.
Proof.
  intros Hab. cbn. apply Qle_bool_iff. by rewrite !Qred_correct.
Qed.

Lemma exact_round_exact_int z :
  (Z.abs z <= 2 ^ 53)%Z → exact_round (inject_Z z) = Finite (inject_Z z).
Proof.
  intros _. unfold exact_round. f_equal.
  apply Qcanon.Qred_identity. cbn. apply Z.gcd_1_r.
Qed.

Lemma C3_unavailable_assets_sentinel_witness :
  predict_failure sample_add sample_truediv exact_round assets_no_scaler
    overheating_vitals
  = Ok ("Model not loaded", int 0, None).
Proof.
  apply (C3_unavailable_assets_sentinel sample_add sample_truediv exact_round
           assets_no_scaler overheating_vitals).
  right. left. reflexivity.
Defined.



(** * Further properties *)

(** ** The rule evaluator on complete and on broken readings *)

Lemma run_rules_cons_ok b label rules :
  run_rules ((Ok b, label) :: rules) [] = alert_if b label ++ run_rules rules [].
Proof.
  cbn [run_rules]. destruct b; [|done]. by rewrite run_rules_app.
Qed.

(** The table of a reading whose required keys all hold numbers. *)
Lemma rule_table_numeric (data : gmap string value)
    (odo temp bat oil front susp tire cool bfl trans : num) (rear : option num) :
  data !! "odometer_km" = Some (VNum odo) →
  data !! "engine_temp_c" = Some (VNum temp) →
  data !! "battery_voltage_v" = Some (VNum bat) →
  data !! "oil_pressure_kpa" = Some (VNum oil) →
  data !! "brake_pad_wear_mm_front" = Some (VNum front) →
  data !! "brake_pad_wear_mm_rear" = VNum <$> rear →
  data !! "suspension_health_pct" = Some (VNum susp) →
  data !! "tire_pressure_psi_fl" = Some (VNum tire) →
  data !! "coolant_level_pct" = Some (VNum cool) →
  data !! "brake_fluid_level_pct" = Some (VNum bfl) →
  data !! "transmission_fluid_temp_c" = Some (VNum trans) →
  rule_table data =
  [ (Ok (num_gt odo (int 300000)), "Maintenance Due / High Mileage Warning");
    (Ok (num_gt temp (int 110)), "Engine Overheating");
    (Ok (num_lt bat (Finite 12)), "Battery Failure");
    (Ok (num_lt oil (int 150)), "Low Oil Pressure Warning");
    (Ok (num_lt front (int 3) || num_lt (default (int 3) rear) (int 3)),
     "Brake Pads Critically Worn");
    (Ok (num_lt susp (int 40)), "Suspension Failure Risk");
    (Ok (num_lt tire (int 20)), "Low Tire Pressure");
    (Ok (num_lt cool (int 30)), "Coolant Critically Low");
    (Ok (num_lt bfl (int 20)), "Brake Fluid Critically Low");
    (Ok (num_gt trans (int 110)), "Transmission Overheating") ].
Proof.
  intros Hodo Htemp Hbat Hoil Hfront Hrear Hsusp Htire Hcool Hbfl Htrans.
  unfold rule_table, cond_odometer, cond_engine_temp, cond_battery,
    cond_oil_pressure, cond_brake_pads, cond_suspension, cond_tire_pressure,
    cond_coolant, cond_brake_fluid, cond_transmission, getitem, dict_get.
  rewrite Hodo, Htemp, Hbat, Hoil, Hfront, Hrear, Hsusp, Htire, Hcool, Hbfl,
    Htrans.
  cbn [mbind result_bind py_gt py_lt].
  assert (py_or (Ok (num_lt front (int 3)))
            (py_lt (default (VNum (int 3)) (VNum <$> rear)) (int 3))
          = Ok (num_lt front (int 3) || num_lt (default (int 3) rear) (int 3)))
    as ->; [|done].
  destruct rear; cbn [fmap option_fmap option_map default from_option id py_lt];
    by destruct (num_lt front (int 3)).
Qed.

(** When the ten required keys hold numbers (and the rear pad entry is a
    number or absent), every rule fires on its own threshold alone: the
    result lists, in source order, exactly the labels whose comparison holds.
    The rear pad wear counts as 3 when absent. *)
Theorem numeric_reading_fires_each_rule_alone (data : gmap string value)
    (odo temp bat oil front susp tire cool bfl trans : num) (rear : option num) :
  data !! "odometer_km" = Some (VNum odo) →
  data !! "engine_temp_c" = Some (VNum temp) →
  data !! "battery_voltage_v" = Some (VNum bat) →
  data !! "oil_pressure_kpa" = Some (VNum oil) →
  data !! "brake_pad_wear_mm_front" = Some (VNum front) →
  data !! "brake_pad_wear_mm_rear" = VNum <$> rear →
  data !! "suspension_health_pct" = Some (VNum susp) →
  data !! "tire_pressure_psi_fl" = Some (VNum tire) →
  data !! "coolant_level_pct" = Some (VNum cool) →
  data !! "brake_fluid_level_pct" = Some (VNum bfl) →
  data !! "transmission_fluid_temp_c" = Some (VNum trans) →
  check_custom_rules data =
  Ok (alert_if (num_gt odo (int 300000)) "Maintenance Due / High Mileage Warning" ++
      alert_if (num_gt temp (int 110)) "Engine Overheating" ++
      alert_if (num_lt bat (Finite 12)) "Battery Failure" ++
      alert_if (num_lt oil (int 150)) "Low Oil Pressure Warning" ++
      alert_if (num_lt front (int 3) || num_lt (default (int 3) rear) (int 3))
        "Brake Pads Critically Worn" ++
      alert_if (num_lt susp (int 40)) "Suspension Failure Risk" ++
      alert_if (num_lt tire (int 20)) "Low Tire Pressure" ++
      alert_if (num_lt cool (int 30)) "Coolant Critically Low" ++
      alert_if (num_lt bfl (int 20)) "Brake Fluid Critically Low" ++
      alert_if (num_gt trans (int 110)) "Transmission Overheating").
Proof.
  intros Hodo Htemp Hbat Hoil Hfront Hrear Hsusp Htire Hcool Hbfl Htrans.
  rewrite check_custom_rules_table. f_equal.
  rewrite (rule_table_numeric data odo temp bat oil front susp tire cool bfl
             trans rear) by done.
  rewrite !run_rules_cons_ok. cbn [run_rules]. by rewrite app_nil_r.
Qed.

Lemma numeric_reading_fires_each_rule_alone_witness :
  check_custom_rules overheating_vitals = Ok ["Engine Overheating"].
Proof.
  apply (numeric_reading_fires_each_rule_alone overheating_vitals
           (int 1000) (int 115) float_13_8 (int 300) (int 8)
           (int 80) (int 32) (int 90) (int 90) (int 90) (Some (int 8)));
    by vm_compute.
Defined.

Lemma run_rules_before_first_error rules :
  run_rules rules [] = fired_labels (before_first_error rules).
Proof.
  induction rules as [|[[b|e] label] rules IH]; [done| |done].
  rewrite run_rules_cons_ok, IH. by destruct b.
Qed.

(** What [check_custom_rules] returns on any reading: the labels of the
    rules whose condition holds among the rules in front of the first check
    that raises (a missing key, a value that is not a number). From that
    check on, no rule is looked at. *)
Theorem check_custom_rules_stops_at_first_error (data : gmap string value) :
  check_custom_rules data
  = Ok (fired_labels (before_first_error (rule_table data))).
Proof.
  rewrite check_custom_rules_table. by rewrite run_rules_before_first_error.
Qed.

(** A reading whose "odometer_km" is missing or is not a number gets no
    alert at all, whatever its other values are. *)
Theorem no_odometer_no_alert (data : gmap string value) :
  (∀ x, data !! "odometer_km" ≠ Some (VNum x)) →
  check_custom_rules data = Ok [].
Proof.
  intros Hodo.
  rewrite check_custom_rules_table, run_rules_before_first_error.
  unfold rule_table, cond_odometer, getitem.
  destruct (data !! "odometer_km") as [[x| | |]|] eqn:E; try done.
  by destruct (Hodo x).
Qed.

Lemma no_odometer_no_alert_witness :
  check_custom_rules overheating_no_odometer = Ok [].
Proof.
  apply (no_odometer_no_alert overheating_no_odometer).
  intros x. by vm_compute.
Defined.

(** With the front pads below 3 the rear entry is never read: the result
    is the same whatever is stored under "brake_pad_wear_mm_rear", a string
    included. *)
Theorem worn_front_pads_ignore_rear (data : gmap string value) (front : num)
    (rear : value) :
  data !! "brake_pad_wear_mm_front" = Some (VNum front) →
  num_lt front (int 3) = true →
  check_custom_rules (<["brake_pad_wear_mm_rear" := rear]> data)
  = check_custom_rules data.
Proof.
  intros Hfront Hlt. rewrite !check_custom_rules_table. do 2 f_equal.
  unfold rule_table, cond_odometer, cond_engine_temp, cond_battery,
    cond_oil_pressure, cond_brake_pads, cond_suspension, cond_tire_pressure,
    cond_coolant, cond_brake_fluid, cond_transmission, getitem.
  rewrite !lookup_insert_ne by done. rewrite Hfront.
  cbn [mbind result_bind py_lt]. by rewrite Hlt.
Qed.

Lemma worn_front_pads_ignore_rear_witness :
  check_custom_rules
    (<["brake_pad_wear_mm_rear" := VStr "n/a"]>
       (<["brake_pad_wear_mm_front" := VNum (int 2)]> healthy_vitals))
  = check_custom_rules
      (<["brake_pad_wear_mm_front" := VNum (int 2)]> healthy_vitals).
Proof.
  apply (worn_front_pads_ignore_rear
           (<["brake_pad_wear_mm_front" := VNum (int 2)]> healthy_vitals)
           (int 2) (VStr "n/a")); by vm_compute.
Defined.

(** A [nan] reading never raises its own alert: for each of the nine rules
    that read one key, storing [nan] under the key keeps the rule's label out
    of the result. *)
Theorem nan_reading_raises_no_alert (data : gmap string value)
    (key label : string) :
  (key, label) ∈ single_key_rules →
  ∃ alerts, check_custom_rules (<[key := VNum NaN]> data) = Ok alerts ∧
            label ∉ alerts.
Proof.
  intros Hrule. eexists. split; [apply check_custom_rules_table|].
  intros Hin%run_rules_elem.
  unfold single_key_rules in Hrule. unfold rule_table in Hin.
  repeat (apply elem_of_cons in Hrule as [Hrule|Hrule];
          [injection Hrule as -> ->;
           repeat (apply elem_of_cons in Hin as [Hin|Hin];
                   [try discriminate Hin;
                    injection Hin as Hin; revert Hin;
                    unfold cond_odometer, cond_engine_temp, cond_battery,
                      cond_oil_pressure, cond_suspension, cond_tire_pressure,
                      cond_coolant, cond_brake_fluid, cond_transmission,
                      getitem;
                    by rewrite lookup_insert_eq|]);
           by apply elem_of_nil in Hin|]).
  by apply elem_of_nil in Hrule.
Qed.

Lemma nan_reading_raises_no_alert_witness :
  ∃ alerts,
    check_custom_rules (<["engine_temp_c" := VNum NaN]> overheating_vitals)
    = Ok alerts ∧
    "Engine Overheating" ∉ alerts.
Proof.
  apply (nan_reading_raises_no_alert overheating_vitals
           "engine_temp_c" "Engine Overheating").
  right. left.
Defined.

(** What the Dashboard's diagnosis input can raise: only the five rules fed
    by its widgets. The fixed suspension, tyre, coolant, brake fluid and
    transmission values never alert, the rear pads follow the front pads, and
    with a number for the odometer no check raises, so each of the five
    labels appears exactly when its own threshold is crossed. Without a
    number for the odometer there is no alert at all. *)
Theorem dashboard_input_alerts (selected_car odometer_km : value)
    (engine_temp_c battery_voltage_v oil_pressure_kpa brake_wear_front : num) :
  check_custom_rules
    (diagnosis_input selected_car odometer_km engine_temp_c battery_voltage_v
       oil_pressure_kpa brake_wear_front)
  = Ok match odometer_km with
       | VNum odo =>
           alert_if (num_gt odo (int 300000))
             "Maintenance Due / High Mileage Warning" ++
           alert_if (num_gt engine_temp_c (int 110)) "Engine Overheating" ++
           alert_if (num_lt battery_voltage_v (Finite 12)) "Battery Failure" ++
           alert_if (num_lt oil_pressure_kpa (int 150))
             "Low Oil Pressure Warning" ++
           alert_if (num_lt brake_wear_front (int 3))
             "Brake Pads Critically Worn"
       | _ => []
       end.
Proof.
  rewrite check_custom_rules_table. f_equal.
  destruct odometer_km as [odo| | |]; [|done..].
  rewrite (rule_table_numeric _ odo engine_temp_c battery_voltage_v
             oil_pressure_kpa brake_wear_front
             (int 85) (int 32) (int 95) (int 95) (int 85)
             (Some brake_wear_front)) by done.
  cbn [default from_option id]. rewrite orb_diag.
  rewrite !run_rules_cons_ok. cbn [run_rules]. by rewrite !app_nil_r.
Qed.

(** ** The adapter and the fusion on further inputs *)

Lemma predict_failure_unavailable series_add series_truediv round64
    (assets : ModelAssets) (input_data : gmap string value) :
  model assets = None ∨ scaler assets = None ∨ encoder assets = None ∨
    training_columns assets = None →
  predict_failure series_add series_truediv round64 assets input_data
  = Ok ("Model not loaded", int 0, None).
Proof.
  unfold predict_failure.
  destruct assets as [[m|] [s|] [e|] [cols|]]; cbn; naive_solver.
Qed.

(** Without model assets the diagnosis of any reading is its rule alerts
    and nothing else: the sentinel label "Model not loaded" never enters the
    alert set, the confidence is 0 and there is no distribution. *)
Theorem no_assets_verdict_is_rule_alerts series_add series_truediv round64
    (assets : ModelAssets) (data : gmap string value) :
  model assets = None ∨ scaler assets = None ∨ encoder assets = None ∨
    training_columns assets = None →
  ∃ rule_alerts,
    check_custom_rules data = Ok rule_alerts ∧
    run_diagnosis series_add series_truediv round64 assets data
    = Ok {| verdict_alerts := list_to_set rule_alerts;
            verdict_confidence := int 0;
            verdict_proba := None |}.
Proof.
  intros Hnone. exists (run_rules (rule_table data) []).
  split; [apply check_custom_rules_table|].
  unfold run_diagnosis.
  rewrite check_custom_rules_table, predict_failure_unavailable by done.
  reflexivity.
Qed.

Lemma no_assets_verdict_is_rule_alerts_witness :
  ∃ rule_alerts,
    check_custom_rules overheating_vitals = Ok rule_alerts ∧
    run_diagnosis sample_add sample_truediv exact_round assets_no_scaler
      overheating_vitals
    = Ok {| verdict_alerts := list_to_set rule_alerts;
            verdict_confidence := int 0;
            verdict_proba := None |}.
Proof.
  apply (no_assets_verdict_is_rule_alerts sample_add sample_truediv
           exact_round assets_no_scaler overheating_vitals).
  right. left. reflexivity.
Defined.

(** A diagnosis never lists "None" or "Normal" as an alert, and every alert
    it lists is one of the ten rule labels or the label the classifier
    predicted with a confidence of at least 50. *)
Theorem verdict_alerts_are_real_alerts series_add series_truediv round64
    (assets : ModelAssets) (data : gmap string value) (v : Verdict) :
  run_diagnosis series_add series_truediv round64 assets data = Ok v →
  ("None" ∉ verdict_alerts v) ∧ ("Normal" ∉ verdict_alerts v) ∧
  (∀ a, a ∈ verdict_alerts v →
        a ∈ alert_labels ∨
        ∃ conf proba,
          predict_failure series_add series_truediv round64 assets data
          = Ok (a, conf, proba) ∧ num_ge conf (int 50) = true).
Proof.
  unfold run_diagnosis. rewrite check_custom_rules_table.
  cbn [mbind result_bind].
  destruct (predict_failure _ _ _ assets data) as [[[label conf] proba]|e];
    [|done].
  intros [= <-]. cbn [fuse verdict_alerts].
  pose proof (run_rules_sublist (rule_table data)) as Hsub.
  rewrite rule_table_labels in Hsub.
  assert (∀ a, a ∈ run_rules (rule_table data) [] → a ∈ alert_labels) as Hrule.
  { intros a Ha. by eapply elem_of_sublist. }
  assert (("None" ∉ alert_labels) ∧ ("Normal" ∉ alert_labels))
    as [HNone HNormal].
  { split; refine (bool_decide_unpack _ _); by vm_compute. }
  split_and!.
  - rewrite elem_of_all_alerts. naive_solver.
  - rewrite elem_of_all_alerts. naive_solver.
  - intros a. rewrite elem_of_all_alerts. naive_solver.
Qed.

Lemma verdict_alerts_are_real_alerts_witness :
  ∃ v,
    run_diagnosis sample_add sample_truediv exact_round sample_assets
      overheating_vitals = Ok v ∧
    ("None" ∉ verdict_alerts v) ∧ ("Normal" ∉ verdict_alerts v) ∧
    (∀ a, a ∈ verdict_alerts v →
          a ∈ alert_labels ∨
          ∃ conf proba,
            predict_failure sample_add sample_truediv exact_round
              sample_assets overheating_vitals
            = Ok (a, conf, proba) ∧ num_ge conf (int 50) = true).
Proof.
  eexists. split; [by vm_compute|].
  apply (verdict_alerts_are_real_alerts sample_add sample_truediv exact_round
           sample_assets overheating_vitals).
  by vm_compute.
Defined.

(** Fusing again changes nothing: feeding the fused alerts back in with the
    same prediction gives the same set. *)
Theorem fusion_idempotent (rule_alerts : list string) (label : string)
    (confidence : num) :
  all_alerts (elements (all_alerts rule_alerts label confidence))
    label confidence
  = all_alerts rule_alerts label confidence.
Proof.
  apply set_eq. intros x.
  rewrite (elem_of_all_alerts (elements _)).
  rewrite (elem_of_elements (all_alerts rule_alerts label confidence) x).
  rewrite !elem_of_all_alerts. naive_solver.
Qed.


(** ** What the adapter reads from a reading *)

Section AdapterReads.
Variable series_add series_truediv : value → value → result value.
Variable round64 : Q → num.

Lemma temp_pressure_ratio_ext (d1 d2 : gmap string value) :
  d1 !! "engine_temp_c" = d2 !! "engine_temp_c" →
  d1 !! "oil_pressure_kpa" = d2 !! "oil_pressure_kpa" →
  temp_pressure_ratio series_add series_truediv d1
  = temp_pressure_ratio series_add series_truediv d2.
Proof. unfold temp_pressure_ratio, getitem. by intros -> ->. Qed.

Lemma total_brake_wear_ext (d1 d2 : gmap string value) :
  d1 !! "brake_pad_wear_mm_front" = d2 !! "brake_pad_wear_mm_front" →
  d1 !! "brake_pad_wear_mm_rear" = d2 !! "brake_pad_wear_mm_rear" →
  total_brake_wear series_add d1 = total_brake_wear series_add d2.
Proof. unfold total_brake_wear, getitem. by intros -> ->. Qed.

Lemma reindex_ext (d1 d2 : gmap string value) (columns : list string) :
  (∀ c, c ∈ columns → d1 !! c = d2 !! c) →
  reindex d1 columns = reindex d2 columns.
Proof.
  intros Hagree. unfold reindex. apply list_fmap_ext.
  intros i c Hc. rewrite Hagree; [done|]. by eapply list_elem_of_lookup_2.
Qed.

Lemma engineered_frame_ext (d1 d2 : gmap string value) (c : string) :
  (∀ k, k ∈ ["engine_temp_c"; "oil_pressure_kpa";
             "brake_pad_wear_mm_front"; "brake_pad_wear_mm_rear"]
        → d1 !! k = d2 !! k) →
  d1 !! c = d2 !! c →
  engineered_frame series_add series_truediv d1 !! c
  = engineered_frame series_add series_truediv d2 !! c.
Proof.
  intros Hfour Hc. unfold engineered_frame.
  rewrite (temp_pressure_ratio_ext d1 d2) by (apply Hfour; set_solver).
  set (r := try_or (temp_pressure_ratio series_add series_truediv d2) _).
  rewrite (total_brake_wear_ext (<["temp_pressure_ratio" := r]> d1)
             (<["temp_pressure_ratio" := r]> d2))
    by (rewrite !lookup_insert_ne by done; apply Hfour; set_solver).
  rewrite !lookup_insert. repeat case_decide; auto.
Qed.

Lemma engineered_frame_insert (data : gmap string value) (k : string)
    (v : value) :
  k = "temp_pressure_ratio" ∨ k = "total_brake_wear" →
  engineered_frame series_add series_truediv (<[k := v]> data)
  = engineered_frame series_add series_truediv data.
Proof.
  intros Hk. unfold engineered_frame.
  rewrite (temp_pressure_ratio_ext (<[k := v]> data) data)
    by (destruct Hk as [-> | ->]; by rewrite lookup_insert_ne).
  set (r := try_or (temp_pressure_ratio series_add series_truediv data) _).
  destruct Hk as [-> | ->].
  - by rewrite insert_insert_eq.
  - rewrite (insert_insert_ne data "temp_pressure_ratio" "total_brake_wear")
      by done.
    rewrite (total_brake_wear_ext
               (<["total_brake_wear" := v]> (<["temp_pressure_ratio" := r]> data))
               (<["temp_pressure_ratio" := r]> data))
      by (by rewrite lookup_insert_ne).
    by rewrite insert_insert_eq.
Qed.

(** [predict_failure] looks at a reading only through the four inputs of the
    engineered features and the training columns: two readings that agree on
    those keys get the same prediction, whatever else they hold (the "car"
    entry of the diagnosis input, say). *)
Theorem predict_failure_reads_only_its_keys (assets : ModelAssets)
    (d1 d2 : gmap string value) :
  (∀ k, k ∈ keys_read assets → d1 !! k = d2 !! k) →
  predict_failure series_add series_truediv round64 assets d1
  = predict_failure series_add series_truediv round64 assets d2.
Proof.
  intros Hagree. unfold predict_failure.
  destruct (negb _); [done|].
  destruct (training_columns assets) as [columns|] eqn:Hcols; [|done].
  cbn [deref mbind result_bind].
  change (<["total_brake_wear" := _]> (<["temp_pressure_ratio" := _]> d1))
    with (engineered_frame series_add series_truediv d1).
  change (<["total_brake_wear" := _]> (<["temp_pressure_ratio" := _]> d2))
    with (engineered_frame series_add series_truediv d2).
  rewrite (reindex_ext (engineered_frame series_add series_truediv d1)
             (engineered_frame series_add series_truediv d2) columns); [done|].
  intros c Hc. apply engineered_frame_ext.
  - intros k Hk. apply Hagree. unfold keys_read. apply elem_of_app. by left.
  - apply Hagree. unfold keys_read. rewrite Hcols. apply elem_of_app. by right.
Qed.

(** A reading cannot supply the engineered features itself: an entry under
    "temp_pressure_ratio" or "total_brake_wear" is overwritten before the
    classifier sees the row. *)
Theorem predict_failure_overwrites_engineered_keys (assets : ModelAssets)
    (data : gmap string value) (v : value) :
  predict_failure series_add series_truediv round64 assets
    (<["temp_pressure_ratio" := v]> data)
  = predict_failure series_add series_truediv round64 assets data ∧
  predict_failure series_add series_truediv round64 assets
    (<["total_brake_wear" := v]> data)
  = predict_failure series_add series_truediv round64 assets data.
Proof.
  unfold predict_failure. destruct (negb _); [done|].
  split.
  - change (<["total_brake_wear" := _]>
              (<["temp_pressure_ratio" := _]> (<["temp_pressure_ratio" := v]> data)))
      with (engineered_frame series_add series_truediv
              (<["temp_pressure_ratio" := v]> data)).
    rewrite engineered_frame_insert by (by left). done.
  - change (<["total_brake_wear" := _]>
              (<["temp_pressure_ratio" := _]> (<["total_brake_wear" := v]> data)))
      with (engineered_frame series_add series_truediv
              (<["total_brake_wear" := v]> data)).
    rewrite engineered_frame_insert by (by right). done.
Qed.
End AdapterReads.

Lemma predict_failure_reads_only_its_keys_witness :
  predict_failure sample_add sample_truediv exact_round sample_assets
    overheating_vitals
  = predict_failure sample_add sample_truediv exact_round sample_assets
      (<["car" := VObj]> overheating_vitals).
Proof.
  apply (predict_failure_reads_only_its_keys sample_add sample_truediv
           exact_round sample_assets overheating_vitals
           (<["car" := VObj]> overheating_vitals)).
  intros k Hk. rewrite lookup_insert_ne; [done|].
  intros <-. revert Hk.
  change ("car" ∉ keys_read sample_assets).
  refine (bool_decide_unpack _ _). by vm_compute.
Defined.

(** ** The confidence and the threshold of 50 *)

Lemma num_le_refl x : x ≠ NaN → num_le x x = true.
Proof. destruct x; try done. intros _. cbn. apply Qle_bool_iff, Qle_refl. Qed.

Lemma num_le_trans x y z :
  num_le x y = true → num_le y z = true → num_le x z = true.
Proof.
  destruct x, y, z; cbn; try done.
  rewrite !Qle_bool_iff. apply Qle_trans.
Qed.

Lemma num_lt_le x y : num_lt x y = true → num_le x y = true.
Proof.
  destruct x, y; cbn; try done.
  unfold Qlt_bool. rewrite negb_true_iff, Qle_bool_iff.
  intros Hnle. destruct (Qlt_le_dec q q0) as [Hlt|Hle].
  - by apply Qlt_le_weak.
  - apply Qle_bool_iff in Hle. congruence.
Qed.

Lemma num_not_lt_le x y :
  x ≠ NaN → y ≠ NaN → num_lt x y = false → num_le y x = true.
Proof.
  destruct x, y; cbn; try done.
  unfold Qlt_bool. by rewrite negb_false_iff.
Qed.

Lemma num_max_bounds x y :
  x ≠ NaN → y ≠ NaN →
  num_max x y ≠ NaN ∧
  num_le x (num_max x y) = true ∧ num_le y (num_max x y) = true.
Proof.
  intros Hx Hy.
  assert (num_max x y = if num_lt x y then y else x) as ->.
  { by destruct x, y. }
  destruct (num_lt x y) eqn:Hlt.
  - split_and!; [done| by apply num_lt_le | by apply num_le_refl].
  - split_and!; [done| by apply num_le_refl | by apply num_not_lt_le].
Qed.

Lemma foldl_num_max_bounds x ps :
  x ≠ NaN → NaN ∉ ps →
  foldl num_max x ps ≠ NaN ∧
  ∀ p, p ∈ x :: ps → num_le p (foldl num_max x ps) = true.
Proof.
  revert x. induction ps as [|y ps IH]; intros x Hx Hps.
  - split; [done|]. intros p ->%list_elem_of_singleton. by apply num_le_refl.
  - apply not_elem_of_cons in Hps as [Hy Hps].
    destruct (num_max_bounds x y) as (Hm & Hxm & Hym); [done..|].
    destruct (IH (num_max x y) Hm Hps) as [Hne Hub].
    cbn [foldl]. split; [done|].
    intros p [->|[->|Hp]%elem_of_cons]%elem_of_cons.
    + eapply num_le_trans; [done|]. apply Hub. left.
    + eapply num_le_trans; [done|]. apply Hub. left.
    + apply Hub. by right.
Qed.

Lemma foldl_num_max_NaN x ps : NaN ∈ x :: ps → foldl num_max x ps = NaN.
Proof.
  revert x. induction ps as [|y ps IH]; intros x.
  - by intros ->%list_elem_of_singleton.
  - intros Hin. cbn [foldl]. apply IH.
    apply elem_of_cons in Hin as [<-|[<-|Hin]%elem_of_cons].
    + left.
    + destruct x; left.
    + by right.
Qed.

Section Threshold.
Variable series_add series_truediv : value → value → result value.
Variable round64 : Q → num.

Lemma predict_failure_with_distribution (assets : ModelAssets)
    (data : gmap string value) (label : string) (conf : num) (ps : list num) :
  predict_failure series_add series_truediv round64 assets data
  = Ok (label, conf, Some ps) →
  ∃ top, np_max ps = Ok top ∧ conf = float_mul round64 top (int 100).
Proof.
  unfold predict_failure. destruct (negb _); [done|].
  destruct (training_columns assets) as [columns|]; [|done].
  destruct (scaler assets) as [sc|]; [|done].
  cbn [deref mbind result_bind].
  destruct (transform sc _) as [input_scaled|]; [|done].
  cbn [mbind result_bind].
  destruct (model assets) as [m|]; [|done].
  cbn [deref mbind result_bind].
  destruct (predict m input_scaled) as [cls|]; [|done].
  cbn [mbind result_bind].
  destruct (predict_proba m input_scaled) as [ps'|]; [|done].
  cbn [mbind result_bind].
  destruct (encoder assets) as [en|]; [|done].
  cbn [deref mbind result_bind].
  destruct (inverse_transform en cls) as [lbl|]; [|done].
  cbn [mbind result_bind].
  destruct (np_max ps') as [top|] eqn:Htop; cbn [mbind result_bind]; [|done].
  intros [= <- <- <-]. by exists top.
Qed.

(** A [nan] among the class probabilities silences the classifier: the
    confidence is [nan], every comparison with 50 fails, and the fused alerts
    are the rule alerts whatever label was predicted. *)
Theorem nan_probability_drops_prediction (assets : ModelAssets)
    (data : gmap string value) (label : string) (conf : num) (ps : list num) :
  predict_failure series_add series_truediv round64 assets data
  = Ok (label, conf, Some ps) →
  NaN ∈ ps →
  conf = NaN ∧
  ∀ rule_alerts, all_alerts rule_alerts label conf = list_to_set rule_alerts.
Proof.
  intros (top & Htop & ->)%predict_failure_with_distribution Hnan.
  destruct ps as [|x ps]; [done|]. injection Htop as <-.
  rewrite foldl_num_max_NaN by done.
  split; [done|]. intros rule_alerts.
  unfold all_alerts. cbn [float_mul num_ge num_le]. by rewrite andb_false_r.
Qed.

Hypothesis round64_monotone :
  ∀ a b, (a <= b)%Q → num_le (round64 a) (round64 b) = true.
Hypothesis round64_exact_int :
  ∀ z, (Z.abs z <= 2 ^ 53)%Z → round64 (inject_Z z) = Finite (inject_Z z).

(** When some class has probability at least one half (and none is [nan]),
    the confidence reaches the threshold of 50, so a predicted label other
    than "None" and "Normal" always enters the alert set. *)
Theorem majority_probability_passes_threshold (assets : ModelAssets)
    (data : gmap string value) (label : string) (conf : num) (ps : list num)
    (p : num) :
  predict_failure series_add series_truediv round64 assets data
  = Ok (label, conf, Some ps) →
  NaN ∉ ps →
  p ∈ ps →
  num_le (Finite (1 # 2)) p = true →
  num_ge conf (int 50) = true ∧
  ∀ rule_alerts,
    label ∈ all_alerts rule_alerts label conf ↔
    label ∈ rule_alerts ∨ (label ≠ "None" ∧ label ≠ "Normal").
Proof using round64_monotone round64_exact_int.
  intros (top & Htop & ->)%predict_failure_with_distribution Hnan Hp Hhalf.
  destruct ps as [|x ps]; [done|]. injection Htop as <-.
  apply not_elem_of_cons in Hnan as [Hx Hnan].
  destruct (foldl_num_max_bounds x ps) as [Hne Hub]; [done..|].
  assert (num_le (Finite (1 # 2)) (foldl num_max x ps) = true) as Htop.
  { eapply num_le_trans; [done|]. by apply Hub. }
  assert (num_ge (float_mul round64 (foldl num_max x ps) (int 100)) (int 50)
          = true) as Hge.
  { unfold num_ge. destruct (foldl num_max x ps) as [q| | |]; try done.
    unfold int. cbn [float_mul].
    rewrite <- (round64_exact_int 50) by done.
    apply round64_monotone. cbn in Htop. apply Qle_bool_iff in Htop.
    change (inject_Z 100) with 100%Q.
    apply Qle_trans with ((1 # 2) * 100)%Q; [unfold Qle; cbn; lia|].
    apply Qmult_le_compat_r; [done|]. unfold Qle; cbn; lia. }
  split; [done|]. intros rule_alerts. rewrite elem_of_all_alerts.
  naive_solver.
Qed.
End Threshold.

Lemma nan_probability_drops_prediction_witness :
  NaN = NaN ∧
  ∀ rule_alerts,
    all_alerts rule_alerts "Engine Overheating" NaN = list_to_set rule_alerts.
Proof.
  apply (nan_probability_drops_prediction sample_add sample_truediv exact_round
           assets_nan_model overheating_vitals "Engine Overheating" NaN
           [Finite (1 # 5); NaN]).
  - by vm_compute.
  - right. left.
Defined.

Lemma majority_probability_passes_threshold_witness :
  num_ge (Finite 80) (int 50) = true ∧
  ∀ rule_alerts,
    "Engine Overheating" ∈ all_alerts rule_alerts "Engine Overheating" (Finite 80) ↔
    "Engine Overheating" ∈ rule_alerts ∨
    ("Engine Overheating" ≠ "None" ∧ "Engine Overheating" ≠ "Normal").
Proof.
  apply (majority_probability_passes_threshold sample_add sample_truediv
           exact_round exact_round_monotone exact_round_exact_int
           sample_assets overheating_vitals "Engine Overheating" (Finite 80)
           [Finite (1 # 5); Finite (4 # 5)] (Finite (4 # 5))).
  - by vm_compute.
  - intros [[=]|[[=]|[]%elem_of_nil]%elem_of_cons]%elem_of_cons.
  - right. left.
  - by vm_compute.
Defined.

(** ** The sidebar *)

Lemma list_index_elem_of x xs :
  x ∈ xs → ∃ i, list_index x xs = Ok i ∧ nth i xs "" = x.
Proof.
  induction xs as [|y ys IH]; [by intros ?%elem_of_nil|].
  intros Hin. cbn [list_index].
  destruct (String.eqb_spec x y) as [->|Hne]; [by exists 0%nat|].
  apply elem_of_cons in Hin as [?|Hin]; [done|].
  destruct (IH Hin) as (i & -> & Hi). by exists (S i).
Qed.

Lemma py_not_in_false x xs : py_not_in x xs = false ↔ x ∈ xs.
Proof. unfold py_not_in. by rewrite negb_false_iff, bool_decide_eq_true. Qed.

Lemma sidebar_radio_spec radio available (s : session) (p : string) :
  ss_page s = Some p → p ∈ available →
  ∃ i, nth i available "" = p ∧
       sidebar_radio radio available s
       = Ok (if negb (String.eqb (radio available i) p)
             then Rerun (set_page (radio available i) s)
             else Continue s).
Proof.
  intros Hpage Hin. unfold sidebar_radio, page_attr. rewrite Hpage.
  destruct (list_index_elem_of p available Hin) as (i & Hi & Hnth).
  cbn [mbind result_bind]. rewrite Hi. cbn [mbind result_bind].
  exists i. split; [done|]. by destruct (negb _).
Qed.

(** The page after the guard of lines 380-381 and 388-389. *)
Lemma guarded_page (s : session) (available : list string) (home : string) :
  home ∈ available →
  ∃ p, ss_page (if page_not_in (ss_page s) available
                then set_page home s else s) = Some p ∧
       p ∈ available.
Proof.
  intros Hhome. destruct (page_not_in (ss_page s) available) eqn:Hguard.
  - by exists home.
  - destruct (ss_page s) as [p|] eqn:Hp; [|done].
    exists p. split; [done|]. by apply py_not_in_false.
Qed.

(** The sidebar never fails: whatever the session holds (no page, a page of
    the other login state, any text), the guard in front of
    [available_pages.index] makes the lookup succeed. And a run that gets past
    the sidebar is on a page allowed for its login state, which the sidebar
    has not changed: a visitor who is not logged in only ever reaches "Home",
    "Log In" and "Sign Up". *)
Theorem sidebar_safe_and_page_allowed (logout_clicked : bool)
    (radio : list string → nat → string) (s : session) :
  ∃ r, sidebar logout_clicked radio s = Ok r ∧
       ∀ s', r = Continue s' →
             current_user s' = current_user s ∧
             ∃ p, ss_page s' = Some p ∧ p ∈ pages_for s'.
Proof.
  unfold sidebar, pages_for.
  destruct (truthy_str (current_user s)) eqn:Huser.
  - destruct logout_clicked; [by eexists|].
    destruct (guarded_page s logged_in_pages "Dashboard") as (p & Hp & Hin);
      [set_solver|].
    destruct (sidebar_radio_spec radio _ _ p Hp Hin) as (i & _ & ->).
    eexists. split; [done|]. intros s' Hs'.
    destruct (negb _); [done|]. injection Hs' as <-.
    assert (current_user
              (if page_not_in (ss_page s) logged_in_pages
               then set_page "Dashboard" s else s) = current_user s) as Hcu.
    { by destruct (page_not_in _ _). }
    rewrite Hcu, Huser. eauto.
  - destruct (guarded_page s logged_out_pages "Home") as (p & Hp & Hin);
      [set_solver|].
    set (s1 := if page_not_in (ss_page s) logged_out_pages
               then set_page "Home" s else s) in *.
    assert (current_user s1 = current_user s) as Hcu.
    { unfold s1. by destruct (page_not_in _ _). }
    set (s2 := match ss_submissions s1 with None => _ | Some _ => s1 end).
    assert (ss_page s2 = Some p ∧ current_user s2 = current_user s) as [Hp2 Hcu2].
    { unfold s2. by destruct (ss_submissions s1). }
    destruct (sidebar_radio_spec radio _ _ p Hp2 Hin) as (i & _ & ->).
    eexists. split; [done|]. intros s' Hs'.
    destruct (negb _); [done|]. injection Hs' as <-.
    rewrite Hcu2, Huser. eauto.
Qed.

Lemma truthy_str_nonempty u : u ≠ "" → truthy_str (Some u) = true.
Proof.
  intros Hu. cbn. apply negb_true_iff. by destruct (String.eqb_spec u "").
Qed.

(** A run of the sidebar without a logout click: the page [p] the guard
    leaves, then the radio. *)
Lemma sidebar_run_shape (radio : list string → nat → string) (s : session) :
  ∃ p i s1,
    p ∈ pages_for s ∧
    (∀ q, ss_page s = Some q → q ∈ pages_for s → p = q) ∧
    nth i (pages_for s) "" = p ∧
    current_user s1 = current_user s ∧
    ss_logged_in s1 = ss_logged_in s ∧
    ss_diagnosis_input s1 = ss_diagnosis_input s ∧
    ss_page s1 = Some p ∧
    sidebar false radio s
    = Ok (if negb (String.eqb (radio (pages_for s) i) p)
          then Rerun (set_page (radio (pages_for s) i) s1)
          else Continue s1).
Proof.
  unfold sidebar, pages_for.
  destruct (truthy_str (current_user s)).
  - destruct (guarded_page s logged_in_pages "Dashboard") as (p & Hp & Hin);
      [set_solver|].
    destruct (sidebar_radio_spec radio _ _ p Hp Hin) as (i & Hi & ->).
    exists p, i, (if page_not_in (ss_page s) logged_in_pages
                  then set_page "Dashboard" s else s).
    split_and!; try done; try (by destruct (page_not_in _ _)).
    intros q Hq Hqin. apply py_not_in_false in Hqin.
    rewrite Hq in Hp. cbn [page_not_in] in Hp. rewrite Hqin in Hp.
    congruence.
  - destruct (guarded_page s logged_out_pages "Home") as (p & Hp & Hin);
      [set_solver|].
    set (s1 := if page_not_in (ss_page s) logged_out_pages
               then set_page "Home" s else s) in *.
    set (s2 := match ss_submissions s1 with None => _ | Some _ => s1 end).
    assert (ss_page s2 = Some p) as Hp2
      by (unfold s2; by destruct (ss_submissions s1)).
    destruct (sidebar_radio_spec radio _ _ p Hp2 Hin) as (i & Hi & ->).
    exists p, i, s2.
    split_and!; try done;
      try (unfold s2, s1; by destruct (page_not_in _ _), (ss_submissions _)).
    intros q Hq Hqin. apply py_not_in_false in Hqin.
    unfold s1 in Hp. rewrite Hq in Hp. cbn [page_not_in] in Hp.
    rewrite Hqin in Hp. congruence.
Qed.

Lemma pages_for_same_user (s t : session) :
  current_user t = current_user s → pages_for t = pages_for s.
Proof. unfold pages_for. by intros ->. Qed.

(** A click on a sidebar entry settles after at most one rerun: with the
    visitor's choice [c] among the pages of the login state, the first run
    ends on page [c] (rerunning if it was elsewhere), and the run after it
    gets past the sidebar on page [c]. *)
Theorem sidebar_choice_settles (c : string) (s : session) :
  c ∈ pages_for s →
  ∃ r s',
    sidebar false (radio_pick c) s = Ok r ∧
    sidebar false (radio_pick c) (state_of r) = Ok (Continue s') ∧
    ss_page s' = Some c ∧ current_user s' = current_user s.
Proof.
  intros Hc.
  destruct (sidebar_run_shape (radio_pick c) s)
    as (p & i & s1 & Hp & _ & _ & Hcu1 & _ & _ & Hp1 & Hrun).
  unfold radio_pick in Hrun.
  set (r := if negb (c =? p)%string then Rerun (set_page c s1) else Continue s1)
    in Hrun.
  assert (ss_page (state_of r) = Some c ∧
          current_user (state_of r) = current_user s) as [Hpt Hcut].
  { unfold r. destruct (String.eqb_spec c p) as [->|Hne]; cbn; by rewrite ?Hcu1. }
  destruct (sidebar_run_shape (radio_pick c) (state_of r))
    as (p' & i' & t1 & _ & Hsame & _ & Hcu' & _ & _ & Hp' & Hrun').
  assert (p' = c) as ->.
  { apply Hsame; [done|]. by rewrite (pages_for_same_user s (state_of r)). }
  unfold radio_pick in Hrun'. rewrite String.eqb_refl in Hrun'. cbn in Hrun'.
  exists r, t1. split_and!; [done|done|done|congruence].
Qed.


Lemma sidebar_choice_settles_witness :
  ∃ r s',
    sidebar false (radio_pick "Sign Up") empty_session = Ok r ∧
    sidebar false (radio_pick "Sign Up") (state_of r) = Ok (Continue s') ∧
    ss_page s' = Some "Sign Up" ∧
    current_user s' = current_user empty_session.
Proof.
  apply (sidebar_choice_settles "Sign Up" empty_session).
  right. right. left.
Defined.



(** Logging in: after [login_user] with a non-empty username the next run
    (radio left alone) gets past the sidebar on "Dashboard" as that user, and
    a diagnosis input left in the session by whoever used it before is still
    there. *)
Theorem login_lands_on_dashboard (username full_name : string) (s : session) :
  username ≠ "" →
  ∃ s',
    sidebar false radio_default (state_of (login_user username full_name s))
    = Ok (Continue s') ∧
    current_user s' = Some username ∧ ss_page s' = Some "Dashboard" ∧
    ss_diagnosis_input s' = ss_diagnosis_input s.
Proof.
  intros Hu. unfold sidebar, login_user, state_of, current_user.
  cbn [ss_current_user ss_page]. rewrite (truthy_str_nonempty username Hu).
  assert (page_not_in (Some "Dashboard") logged_in_pages = false) as ->
    by by vm_compute.
  eexists. split; [reflexivity|]. done.
Qed.

Lemma login_lands_on_dashboard_witness :
  ∃ s',
    sidebar false radio_default
      (state_of (login_user "asha" "Asha Rao" empty_session))
    = Ok (Continue s') ∧
    current_user s' = Some "asha" ∧ ss_page s' = Some "Dashboard" ∧
    ss_diagnosis_input s' = ss_diagnosis_input empty_session.
Proof.
  apply (login_lands_on_dashboard "asha" "Asha Rao" empty_session). done.
Defined.

(** ** Accounts and cars *)

Section PersistenceProperties.
Variable sha256_hex : string → string.
Variable order_by_make_model : list (nat * car_row) → list (nat * car_row).

(** Signing up and logging in: on a free username [create_user] succeeds,
    after which [authenticate] accepts that username with that password and
    returns the full name given at sign-up, [get_user_by_username] returns the
    details given, and a password with another hash is refused. *)
Theorem signup_then_login (username pw full email mobile : string)
    (db : database) :
  users db !! username = None →
  ∃ db',
    create_user sha256_hex username pw full email mobile db
    = ((true, "User created successfully"), db') ∧
    authenticate sha256_hex username pw db' = (true, Some full) ∧
    get_user_by_username username db' = Some (full, email, mobile) ∧
    ∀ pw', sha256_hex pw' ≠ sha256_hex pw →
           authenticate sha256_hex username pw' db' = (false, None).
Proof.
  intros Hfree. unfold create_user. rewrite Hfree.
  eexists. split; [reflexivity|].
  unfold authenticate, get_user_by_username, hash_password. cbn [users].
  rewrite lookup_insert_eq. cbn [password_hash user_full_name user_email
    user_mobile].
  rewrite String.eqb_refl. split_and!; [done..|].
  intros pw' Hne. by destruct (String.eqb_spec (sha256_hex pw) (sha256_hex pw')).
Qed.

(** Signing up under a taken username is refused with "Username already
    exists" and leaves both tables as they were: the account keeps its
    password and details, and every login works as before. *)
Theorem taken_username_changes_nothing (username pw full email mobile : string)
    (db : database) (row : user_row) :
  users db !! username = Some row →
  ∃ db',
    create_user sha256_hex username pw full email mobile db
    = ((false, "Username already exists"), db') ∧
    users db' = users db ∧ cars db' = cars db ∧
    ∀ u p, authenticate sha256_hex u p db' = authenticate sha256_hex u p db.
Proof.
  intros Htaken. unfold create_user. rewrite Htaken.
  eexists. split; [reflexivity|]. done.
Qed.

(** Signing up never touches another account: whether it succeeds or not,
    every other username logs in, and reads its details, exactly as before. *)
Theorem signup_leaves_other_accounts (username pw full email mobile : string)
    (db : database) (u p : string) :
  u ≠ username →
  authenticate sha256_hex u p (create_user sha256_hex username pw full email mobile db).2
  = authenticate sha256_hex u p db ∧
  get_user_by_username u (create_user sha256_hex username pw full email mobile db).2
  = get_user_by_username u db.
Proof.
  intros Hne. unfold create_user, authenticate, get_user_by_username.
  destruct (users db !! username); cbn [snd users]; [done|].
  by rewrite lookup_insert_ne.
Qed.

(** Editing the profile changes the three details and nothing else: the
    same passwords are accepted and refused as before (now answering with the
    new full name), and no other account is affected. For a username that is
    not registered it does nothing. *)
Theorem profile_update_keeps_password (username full_name email mobile : string)
    (db : database) :
  let db' := update_user_profile username full_name email mobile db in
  (∀ p, (authenticate sha256_hex username p db').1 = (authenticate sha256_hex username p db).1 ∧
        ((authenticate sha256_hex username p db').1 = true →
         (authenticate sha256_hex username p db').2 = Some full_name)) ∧
  (is_Some (users db !! username) →
   get_user_by_username username db' = Some (full_name, email, mobile)) ∧
  (users db !! username = None → users db' = users db) ∧
  (∀ u p, u ≠ username →
          authenticate sha256_hex u p db' = authenticate sha256_hex u p db ∧
          get_user_by_username u db' = get_user_by_username u db).
Proof.
  intros db'. unfold db', update_user_profile, authenticate,
    get_user_by_username. cbn [users]. split_and!.
  - intros p. rewrite lookup_alter_eq.
    destruct (users db !! username) as [row|]; cbn; [|done].
    by destruct (String.eqb _ _).
  - intros [row Hrow]. by rewrite lookup_alter_eq, Hrow.
  - intros Hnone. apply map_eq. intros u. rewrite lookup_alter.
    case_decide; [|done]. subst. by rewrite Hnone.
  - intros u p Hne. by rewrite lookup_alter_ne.
Qed.
End PersistenceProperties.

Lemma signup_then_login_witness :
  ∃ db',
    create_user sample_sha "cleo" "pa55word" "Cleo Diaz" "cleo@example.com"
      "9123456789" sample_database
    = ((true, "User created successfully"), db') ∧
    authenticate sample_sha "cleo" "pa55word" db' = (true, Some "Cleo Diaz") ∧
    get_user_by_username "cleo" db'
    = Some ("Cleo Diaz", "cleo@example.com", "9123456789") ∧
    ∀ pw', sample_sha pw' ≠ sample_sha "pa55word" →
           authenticate sample_sha "cleo" pw' db' = (false, None).
Proof.
  apply (signup_then_login sample_sha "cleo" "pa55word" "Cleo Diaz"
           "cleo@example.com" "9123456789" sample_database).
  by vm_compute.
Defined.

Lemma taken_username_changes_nothing_witness :
  ∃ db',
    create_user sample_sha "asha" "other" "A" "a@example.com" "9123456789"
      sample_database
    = ((false, "Username already exists"), db') ∧
    users db' = users sample_database ∧ cars db' = cars sample_database ∧
    ∀ u p, authenticate sample_sha u p db'
           = authenticate sample_sha u p sample_database.
Proof.
  eapply (taken_username_changes_nothing sample_sha "asha" "other" "A"
            "a@example.com" "9123456789" sample_database).
  by vm_compute.
Defined.

Lemma signup_leaves_other_accounts_witness :
  authenticate sample_sha "ben" "hunter2"
    (create_user sample_sha "cleo" "pa55word" "Cleo Diaz" "cleo@example.com"
       "9123456789" sample_database).2
  = authenticate sample_sha "ben" "hunter2" sample_database ∧
  get_user_by_username "ben"
    (create_user sample_sha "cleo" "pa55word" "Cleo Diaz" "cleo@example.com"
       "9123456789" sample_database).2
  = get_user_by_username "ben" sample_database.
Proof.
  apply (signup_leaves_other_accounts sample_sha "cleo" "pa55word" "Cleo Diaz"
           "cleo@example.com" "9123456789" sample_database "ben" "hunter2").
  done.
Defined.

Section CarProperties.
Variable order_by_make_model : list (nat * car_row) → list (nat * car_row).
(** ORDER BY arranges the selected rows; it neither drops nor adds one. *)
Hypothesis order_by_permutation : ∀ rows, order_by_make_model rows ≡ₚ rows.

Lemma elem_of_cars_listed (username : string) (db : database) (c : car) :
  c ∈ cars_listed (get_cars_for_user order_by_make_model username db) ↔
  ∃ urow row,
    users db !! username = Some urow ∧
    cars db !! car_id c = Some row ∧
    car_user_id row = user_id urow ∧
    c = car_of_row (car_id c, row).
Proof using order_by_permutation.
  unfold get_cars_for_user, select_user_id.
  destruct (users db !! username) as [urow|]; cbn [cars_listed];
    [|split; [by intros ?%elem_of_nil | by intros (? & ? & ? & _)]].
  rewrite list_elem_of_fmap. split.
  - intros ([id row] & -> & Hin).
    rewrite order_by_permutation in Hin.
    apply list_elem_of_filter in Hin as [Howner Hin].
    apply elem_of_map_to_list in Hin. by exists urow, row.
  - intros (urow' & row & [= <-] & Hrow & Howner & Hc).
    exists (car_id c, row). split; [done|].
    rewrite order_by_permutation.
    apply list_elem_of_filter. split; [done|]. by apply elem_of_map_to_list.
Qed.

(** Adding a car, for a registered user: [add_car] succeeds exactly when
    [year] and [odometer] fit the INTEGER columns, and raises
    NumericValueOutOfRange otherwise. When it succeeds the user's car list
    gains exactly the new car (under the next car_id), and the car list of
    every other user stays as it was. *)
Theorem add_car_shows_for_owner_only (username make_ model_ : string)
    (year_ odometer_ : Z) (db : database) (urow : user_row) :
  db_consistent db →
  users db !! username = Some urow →
  match add_car username make_ model_ year_ odometer_ db with
  | DbOk db' =>
      int4 year_ = true ∧ int4 odometer_ = true ∧
      (∀ c, c ∈ cars_listed (get_cars_for_user order_by_make_model username db') ↔
            c = {| car_id := cars_seq db; make := make_;
                   car_model_name := model_; year := year_;
                   odometer := odometer_ |} ∨
            c ∈ cars_listed (get_cars_for_user order_by_make_model username db)) ∧
      (∀ u c, u ≠ username →
              c ∈ cars_listed (get_cars_for_user order_by_make_model u db') ↔
              c ∈ cars_listed (get_cars_for_user order_by_make_model u db))
  | DbOutOfRange => int4 year_ = false ∨ int4 odometer_ = false
  | DbTypeError => False
  end.
Proof using order_by_permutation.
  intros (Hids & Hdistinct & Hcars & _) Huser.
  unfold add_car, select_user_id. rewrite Huser.
  destruct (int4 year_) eqn:Hyear; [|by left].
  destruct (int4 odometer_) eqn:Hodo; [|by right].
  cbn [andb]. split; [done|]. split; [done|].
  assert (cars db !! cars_seq db = None) as Hfresh.
  { destruct (cars db !! cars_seq db) as [row|] eqn:E; [|done].
    apply Hcars in E. lia. }
  split.
  - intros c. rewrite !elem_of_cars_listed. cbn [users cars]. split.
    + intros (urow' & row & Hu & Hrow & Howner & Hc).
      destruct (decide (car_id c = cars_seq db)) as [Heq|Hne].
      * left. rewrite Heq, lookup_insert_eq in Hrow. injection Hrow as <-.
        by rewrite Hc, Heq.
      * right. rewrite lookup_insert_ne in Hrow by done. by exists urow', row.
    + intros [->|(urow' & row & Hu & Hrow & Howner & Hc)].
      * eexists urow, _. cbn [car_id]. rewrite lookup_insert_eq.
        by split_and!.
      * exists urow', row. split_and!; try done.
        rewrite lookup_insert_ne; [done|]. intros Heq.
        rewrite <- Heq in Hrow. congruence.
  - intros u c Hne. rewrite !elem_of_cars_listed. cbn [users cars]. split.
    + intros (urow' & row & Hu & Hrow & Howner & Hc).
      destruct (decide (car_id c = cars_seq db)) as [Heq|Hne'].
      * rewrite Heq, lookup_insert_eq in Hrow. injection Hrow as <-.
        cbn [car_user_id] in Howner. destruct Hne.
        by apply (Hdistinct u username urow' urow).
      * rewrite lookup_insert_ne in Hrow by done. by exists urow', row.
    + intros (urow' & row & Hu & Hrow & Howner & Hc).
      exists urow', row. split_and!; try done.
      rewrite lookup_insert_ne; [done|]. intros Heq.
      rewrite <- Heq in Hrow. congruence.
Qed.

(** Deleting a car removes that car from every list and no other car. *)
Theorem delete_car_removes_only_that_car (id : nat) (db : database)
    (username : string) (c : car) :
  c ∈ cars_listed
        (get_cars_for_user order_by_make_model username (delete_car id db)) ↔
  c ∈ cars_listed (get_cars_for_user order_by_make_model username db) ∧
  car_id c ≠ id.
Proof using order_by_permutation.
  rewrite !elem_of_cars_listed. unfold delete_car. cbn [users cars].
  rewrite lookup_delete. case_decide; naive_solver.
Qed.

(** Updating a car: [update_car] succeeds exactly when [year] and
    [odometer] fit the INTEGER columns, and raises NumericValueOutOfRange
    otherwise. When it succeeds it never moves the car to another owner: a
    user's list holds the updated car, with the new details, exactly when it
    held that car_id before, and every other car is listed unchanged. *)
Theorem update_car_keeps_owner (id : nat) (make_ model_ : string)
    (year_ odometer_ : Z) (db : database) :
  match update_car id make_ model_ year_ odometer_ db with
  | DbOk db' =>
      int4 year_ = true ∧ int4 odometer_ = true ∧
      ∀ username c,
        c ∈ cars_listed (get_cars_for_user order_by_make_model username db') ↔
        (car_id c ≠ id ∧
         c ∈ cars_listed (get_cars_for_user order_by_make_model username db)) ∨
        (c = {| car_id := id; make := make_; car_model_name := model_;
                year := year_; odometer := odometer_ |} ∧
         ∃ c0, car_id c0 = id ∧
               c0 ∈ cars_listed
                      (get_cars_for_user order_by_make_model username db))
  | DbOutOfRange => int4 year_ = false ∨ int4 odometer_ = false
  | DbTypeError => False
  end.
Proof using order_by_permutation.
  unfold update_car.
  destruct (int4 year_) eqn:Hyear; [|by left].
  destruct (int4 odometer_) eqn:Hodo; [|by right].
  cbn [andb]. split; [done|]. split; [done|]. intros username c.
  rewrite elem_of_cars_listed. cbn [users cars].
  rewrite lookup_alter. case_decide as Hid.
  - subst id. split.
    + intros (urow & row & Hu & Hrow & Howner & Hc). right.
      destruct (cars db !! car_id c) as [row0|] eqn:Hrow0; cbn in Hrow;
        [|done].
      injection Hrow as <-. cbn in Hc, Howner. split; [done|].
      exists (car_of_row (car_id c, row0)). split; [done|].
      apply elem_of_cars_listed. exists urow, row0. by split_and!.
    + intros [[Hne _]|[Hc (c0 & Hc0 & Hin)]]; [by destruct Hne|].
      apply elem_of_cars_listed in Hin as (urow & row0 & Hu & Hrow0 & Howner & _).
      rewrite Hc0 in Hrow0. rewrite Hrow0.
      eexists urow, _. split_and!; [done|reflexivity|done|].
      rewrite Hc at 1. reflexivity.
  - rewrite elem_of_cars_listed.
    split; [intros H; left; by split|].
    intros [[_ H]|[-> _]]; [done|]. by destruct Hid.
Qed.

(** The consistency of the tables is kept by every function that writes to
    them: ids stay below their sequences, user ids stay distinct, and every car
    keeps belonging to a registered user. *)
Theorem writes_keep_consistency (sha256_hex : string → string) (db : database)
    (username pw full email mobile make_ model_ : string) (year_ odometer_ : Z)
    (id : nat) :
  db_consistent db →
  db_consistent (create_user sha256_hex username pw full email mobile db).2 ∧
  db_consistent (update_user_profile username full email mobile db) ∧
  (∀ db', add_car username make_ model_ year_ odometer_ db = DbOk db' →
          db_consistent db') ∧
  (∀ db', update_car id make_ model_ year_ odometer_ db = DbOk db' →
          db_consistent db') ∧
  db_consistent (delete_car id db).
Proof using Type.
  intros (Hids & Hdistinct & Hcars & Howner).
  split; [|split; [|split; [|split]]].
  - unfold create_user. destruct (users db !! username) eqn:Hu; cbn [snd].
    + unfold db_consistent. cbn [users users_seq cars cars_seq].
      split; [|split; [|split]]; [|done..].
      intros u0 row Hrow. apply Hids in Hrow. lia.
    + unfold db_consistent. cbn [users users_seq cars cars_seq].
      split; [|split; [|split]]; [| |done|].
      * intros u0 row. rewrite lookup_insert. case_decide.
        -- intros [= <-]. cbn. lia.
        -- intros Hrow%Hids. lia.
      * intros u1 u2 r1 r2. rewrite !lookup_insert.
        repeat case_decide; subst; try done.
        -- intros [= <-] Hr2%Hids. cbn. lia.
        -- intros Hr1%Hids [= <-]. cbn. lia.
        -- apply Hdistinct.
      * intros id' row Hrow.
        destruct (Howner id' row Hrow) as (u0 & urow & Hurow & Hid).
        exists u0, urow. split; [|done]. rewrite lookup_insert_ne; [done|].
        intros <-. congruence.
  - unfold update_user_profile, db_consistent.
    cbn [users users_seq cars cars_seq].
    split; [|split; [|split]]; [| |done|].
    + intros u0 row. rewrite lookup_alter. case_decide.
      * subst u0. destruct (users db !! username) as [r|] eqn:Hr; cbn; [|done].
        intros [= <-]. cbn. by apply (Hids username).
      * apply Hids.
    + assert (∀ u0 r,
                alter (λ row, {| user_id := user_id row;
                                 password_hash := password_hash row;
                                 user_full_name := full;
                                 user_email := email;
                                 user_mobile := mobile |}) username (users db)
                  !! u0 = Some r →
                ∃ r0, users db !! u0 = Some r0 ∧ user_id r0 = user_id r)
        as Hback.
      { intros u0 r. rewrite lookup_alter. case_decide; [|by eauto].
        subst u0. destruct (users db !! username) as [r0|]; cbn; [|done].
        intros [= <-]. by exists r0. }
      intros u1 u2 r1 r2 (r1' & H1 & E1)%Hback (r2' & H2 & E2)%Hback Heq.
      apply (Hdistinct u1 u2 r1' r2'); [done|done|congruence].
    + intros id' row Hrow.
      destruct (Howner id' row Hrow) as (u0 & urow & Hurow & Hid).
      destruct (decide (username = u0)) as [->|Hne].
      * eexists u0, _. rewrite lookup_alter_eq, Hurow. by split.
      * exists u0, urow. by rewrite lookup_alter_ne.
  - unfold add_car, select_user_id.
    destruct (users db !! username) as [urow|] eqn:Hu; [|done].
    destruct (int4 year_ && int4 odometer_); [|done].
    intros db' [= <-]. unfold db_consistent.
    cbn [users users_seq cars cars_seq].
    split; [|split; [|split]]; [done|done| |].
    + intros id' row. rewrite lookup_insert. case_decide.
      * intros _. lia.
      * intros Hrow%Hcars. lia.
    + intros id' row. rewrite lookup_insert. case_decide.
      * intros [= <-]. by exists username, urow.
      * apply Howner.
  - unfold update_car. destruct (int4 year_ && int4 odometer_); [|done].
    intros db' [= <-]. unfold db_consistent.
    cbn [users users_seq cars cars_seq].
    split; [|split; [|split]]; [done|done| |].
    + intros id' row. rewrite lookup_alter. case_decide.
      * subst id'. destruct (cars db !! id) as [r|] eqn:Hr; cbn; [|done].
        intros _. by apply (Hcars id r).
      * apply Hcars.
    + intros id' row. rewrite lookup_alter. case_decide.
      * subst id'. destruct (cars db !! id) as [r|] eqn:Hr; cbn; [|done].
        intros [= <-]. cbn. by apply (Howner id r).
      * apply Howner.
  - unfold delete_car, db_consistent. cbn [users users_seq cars cars_seq].
    split; [|split; [|split]]; [done|done| |].
    + intros id' row. rewrite lookup_delete. case_decide; [done|apply Hcars].
    + intros id' row. rewrite lookup_delete. case_decide; [done|apply Howner].
Qed.
End CarProperties.

Lemma table_order_permutation rows : table_order rows ≡ₚ rows.
Proof. done. Qed.

Lemma sample_users_lookup u row :
  users sample_database !! u = Some row →
  (u = "asha" ∧ user_id row = 1%nat) ∨ (u = "ben" ∧ user_id row = 2%nat).
Proof.
  unfold sample_database. cbn [users].
  rewrite lookup_insert. case_decide as Ha.
  - intros [= <-]. by left.
  - rewrite lookup_singleton. case_decide as Hb; [|done].
    intros [= <-]. by right.
Qed.

Lemma sample_cars_lookup id row :
  cars sample_database !! id = Some row → id = 1%nat ∧ car_user_id row = 1%nat.
Proof.
  unfold sample_database. cbn [cars].
  rewrite lookup_singleton. case_decide; [|done]. by intros [= <-].
Qed.

Lemma sample_database_consistent : db_consistent sample_database.
Proof.
  split; [|split; [|split]].
  - intros u row [[_ Hid]|[_ Hid]]%sample_users_lookup; rewrite Hid; cbn; lia.
  - intros u1 u2 r1 r2 [[-> H1]|[-> H1]]%sample_users_lookup
      [[-> H2]|[-> H2]]%sample_users_lookup; congruence.
  - intros id row [-> _]%sample_cars_lookup. cbn. lia.
  - intros id row [-> Hrow]%sample_cars_lookup.
    eexists "asha", _. split; [by vm_compute|]. by rewrite Hrow.
Qed.

Lemma add_car_shows_for_owner_only_witness :
  match add_car "ben" "Honda" "City" 2019 42000 sample_database with
  | DbOk db' =>
      int4 2019 = true ∧ int4 42000 = true ∧
      (∀ c, c ∈ cars_listed (get_cars_for_user table_order "ben" db') ↔
            c = {| car_id := cars_seq sample_database; make := "Honda";
                   car_model_name := "City"; year := 2019;
                   odometer := 42000 |} ∨
            c ∈ cars_listed (get_cars_for_user table_order "ben" sample_database)) ∧
      (∀ u c, u ≠ "ben" →
              c ∈ cars_listed (get_cars_for_user table_order u db') ↔
              c ∈ cars_listed (get_cars_for_user table_order u sample_database))
  | DbOutOfRange => int4 2019 = false ∨ int4 42000 = false
  | DbTypeError => False
  end.
Proof.
  eapply (add_car_shows_for_owner_only table_order table_order_permutation
            "ben" "Honda" "City" 2019 42000 sample_database).
  - apply sample_database_consistent.
  - by vm_compute.
Defined.

Lemma delete_car_removes_only_that_car_witness :
  {| car_id := 1; make := "Toyota"; car_model_name := "Corolla";
     year := 2015; odometer := 50000 |}
  ∈ cars_listed
      (get_cars_for_user table_order "asha" (delete_car 1 sample_database)) ↔
  {| car_id := 1; make := "Toyota"; car_model_name := "Corolla";
     year := 2015; odometer := 50000 |}
  ∈ cars_listed (get_cars_for_user table_order "asha" sample_database) ∧
  1%nat ≠ 1%nat.
Proof.
  apply (delete_car_removes_only_that_car table_order table_order_permutation
           1 sample_database "asha"
           {| car_id := 1; make := "Toyota"; car_model_name := "Corolla";
              year := 2015; odometer := 50000 |}).
Defined.

Lemma update_car_keeps_owner_witness :
  match update_car 1 "Toyota" "Corolla" 2015 51000 sample_database with
  | DbOk db' =>
      int4 2015 = true ∧ int4 51000 = true ∧
      ∀ username c,
        c ∈ cars_listed (get_cars_for_user table_order username db') ↔
        (car_id c ≠ 1%nat ∧
         c ∈ cars_listed (get_cars_for_user table_order username sample_database)) ∨
        (c = {| car_id := 1; make := "Toyota"; car_model_name := "Corolla";
                year := 2015; odometer := 51000 |} ∧
         ∃ c0, car_id c0 = 1%nat ∧
               c0 ∈ cars_listed
                      (get_cars_for_user table_order username sample_database))
  | DbOutOfRange => int4 2015 = false ∨ int4 51000 = false
  | DbTypeError => False
  end.
Proof.
  apply (update_car_keeps_owner table_order table_order_permutation
           1 "Toyota" "Corolla" 2015 51000 sample_database).
Defined.

Lemma writes_keep_consistency_witness :
  db_consistent
    (create_user sample_sha "cleo" "pa55word" "Cleo Diaz" "cleo@example.com"
       "9123456789" sample_database).2 ∧
  db_consistent
    (update_user_profile "cleo" "Cleo Diaz" "cleo@example.com" "9123456789"
       sample_database) ∧
  (∀ db', add_car "cleo" "Honda" "City" 2019 42000 sample_database = DbOk db' →
          db_consistent db') ∧
  (∀ db', update_car 1 "Honda" "City" 2019 42000 sample_database = DbOk db' →
          db_consistent db') ∧
  db_consistent (delete_car 1 sample_database).
Proof.
  apply (writes_keep_consistency sample_sha sample_database "cleo" "pa55word"
           "Cleo Diaz" "cleo@example.com" "9123456789" "Honda" "City"
           2019 42000 1).
  apply sample_database_consistent.
Defined.

(** ** Sample runs of the database functions *)

Example login_sample :
  authenticate sample_sha "asha" "s3cret" sample_database
  = (true, Some "Asha Rao").
Proof. by vm_compute. Qed.

Example login_wrong_password :
  authenticate sample_sha "asha" "hunter2" sample_database = (false, None).
Proof. by vm_compute. Qed.

Example cars_of_asha :
  get_cars_for_user table_order "asha" sample_database
  = DbOk [ {| car_id := 1; make := "Toyota"; car_model_name := "Corolla";
              year := 2015; odometer := 50000 |} ].
Proof. by vm_compute. Qed.

Example cars_of_unknown_user :
  get_cars_for_user table_order "zoe" sample_database = DbTypeError.
Proof. by vm_compute. Qed.

(** ** The forms *)

Section FormProperties.
Variable sha256_hex : string → string.
Variable re_match : string → string → bool.

Lemma nonempty_truthy u : nonempty u = true → truthy_str (Some u) = true.
Proof. done. Qed.

(** With the radio left alone, a session on a page of its login state gets
    past the sidebar on that page. *)
Lemma sidebar_default_stays (s : session) (p : string) :
  ss_page s = Some p → p ∈ pages_for s →
  ∃ s', sidebar false radio_default s = Ok (Continue s') ∧
        ss_page s' = Some p ∧
        current_user s' = current_user s ∧
        ss_full_name s' = ss_full_name s.
Proof.
  intros Hp Hin. unfold sidebar, pages_for in *.
  assert (page_not_in (ss_page s)
            (if truthy_str (current_user s)
             then logged_in_pages else logged_out_pages) = false) as Hguard.
  { rewrite Hp. by apply py_not_in_false. }
  destruct (truthy_str (current_user s)); rewrite Hguard.
  - destruct (sidebar_radio_spec radio_default _ s p Hp Hin) as (i & Hi & ->).
    unfold radio_default. rewrite Hi, String.eqb_refl. by exists s.
  - set (s1 := match ss_submissions s with None => _ | Some _ => s end).
    assert (ss_page s1 = Some p ∧ current_user s1 = current_user s ∧
            ss_full_name s1 = ss_full_name s) as (Hp1 & Hcu1 & Hfn1)
      by (unfold s1; by destruct (ss_submissions s)).
    destruct (sidebar_radio_spec radio_default _ s1 p Hp1 Hin) as (i & Hi & ->).
    unfold radio_default. rewrite Hi, String.eqb_refl. by exists s1.
Qed.

(** From sign-up to the Dashboard: a logged-out visitor who submits the
    Sign Up form with all fields filled, an email and a mobile number the two
    patterns accept, the same password twice and a free username gets the
    account, is sent to "Log In", and on submitting the same username and
    password there is logged in and lands on "Dashboard" under the full name
    given at sign-up. *)
Theorem signup_then_login_reaches_dashboard
    (full_name email mobile username password : string) (db : database)
    (s : session) :
  nonempty username = true → nonempty password = true →
  nonempty full_name = true → nonempty email = true →
  nonempty mobile = true →
  re_match email_pattern email = true →
  re_match mobile_pattern mobile = true →
  users db !! username = None →
  truthy_str (current_user s) = false →
  ∃ s1 db1 s2 s3 s4,
    signup_submit sha256_hex re_match full_name email mobile username
      password password db s
    = (AccountCreated, Rerun s1, db1) ∧
    sidebar false radio_default s1 = Ok (Continue s2) ∧
    ss_page s2 = Some "Log In" ∧
    login_submit sha256_hex username password db1 s2
    = (Welcome full_name, Rerun s3) ∧
    sidebar false radio_default s3 = Ok (Continue s4) ∧
    ss_page s4 = Some "Dashboard" ∧
    current_user s4 = Some username ∧
    ss_full_name s4 = Some full_name.
Proof.
  intros Hu Hp Hf He Hm Hemail Hmobile Hfree Hout.
  (* the sign-up *)
  assert (∃ db1,
            signup_submit sha256_hex re_match full_name email mobile username
              password password db s
            = (AccountCreated, Rerun (set_page "Log In" s), db1) ∧
            authenticate sha256_hex username password db1
            = (true, Some full_name)) as (db1 & Hsignup & Hauth).
  { unfold signup_submit. rewrite Hu, Hp, Hf, He, Hm, Hemail, Hmobile.
    rewrite String.eqb_refl. cbn [andb negb].
    unfold create_user. rewrite Hfree. eexists. split; [reflexivity|].
    unfold authenticate, hash_password. cbn [users].
    rewrite lookup_insert_eq. cbn. by rewrite String.eqb_refl. }
  (* the run after it, on "Log In" *)
  destruct (sidebar_default_stays (set_page "Log In" s) "Log In")
    as (s2 & Hrun2 & Hp2 & Hcu2 & _); [done| |].
  { unfold pages_for. cbn. unfold current_user in Hout. rewrite Hout.
    set_solver. }
  (* the log-in *)
  assert (login_submit sha256_hex username password db1 s2
          = (Welcome full_name, login_user username full_name s2)) as Hlogin.
  { unfold login_submit. rewrite Hu, Hp. cbn [andb negb]. by rewrite Hauth. }
  (* the run after it, on "Dashboard" *)
  destruct (sidebar_default_stays
              (state_of (login_user username full_name s2)) "Dashboard")
    as (s4 & Hrun4 & Hp4 & Hcu4 & Hfn4); [done| |].
  { unfold pages_for, login_user, state_of, current_user.
    cbn [ss_current_user]. rewrite (nonempty_truthy username Hu).
    set_solver. }
  exists (set_page "Log In" s), db1, s2,
    (state_of (login_user username full_name s2)), s4.
  split_and!; done.
Qed.

(** Nobody is logged in without the right password: the Log In form changes
    the session only when the username is registered and the hash of the
    password entered equals the stored hash; the session then holds that
    username and the stored full name. Otherwise the session stays exactly as
    it was. *)
Theorem login_requires_matching_hash (username password : string)
    (db : database) (s : session) :
  match (login_submit sha256_hex username password db s).2 with
  | Rerun s' =>
      username ≠ "" ∧
      current_user s' = Some username ∧
      ∃ row, users db !! username = Some row ∧
             password_hash row = sha256_hex password ∧
             ss_full_name s' = Some (user_full_name row)
  | Continue s' => s' = s
  end.
Proof.
  unfold login_submit, authenticate, hash_password.
  destruct (nonempty username) eqn:Hu; [|done].
  destruct (nonempty password); [|done]. cbn [andb negb].
  destruct (users db !! username) as [row|] eqn:Hrow; [|done].
  destruct (String.eqb_spec (password_hash row) (sha256_hex password)); [|done].
  cbn. split_and!; [|done|by exists row].
  intros ->. done.
Qed.

(** A sign-up never logs the visitor in, and unless it reports the account
    as created it leaves the run and both tables alone. When it does report
    the account as created, the two passwords were equal, both patterns
    accepted, the username was free, and the new account accepts the
    password. *)
Theorem signup_outcomes (full_name email mobile username password password2 : string)
    (db : database) (s : session) :
  let '(shown, r, db') :=
    signup_submit sha256_hex re_match full_name email mobile username
      password password2 db s in
  current_user (state_of r) = current_user s ∧
  (shown ≠ AccountCreated →
   r = Continue s ∧ users db' = users db ∧ cars db' = cars db) ∧
  (shown = AccountCreated →
   password = password2 ∧
   re_match email_pattern email = true ∧
   re_match mobile_pattern mobile = true ∧
   users db !! username = None ∧
   authenticate sha256_hex username password db' = (true, Some full_name)).
Proof.
  unfold signup_submit.
  destruct (negb (_ && nonempty mobile)); [done|].
  destruct (re_match email_pattern email); [|done].
  destruct (re_match mobile_pattern mobile); [|done].
  destruct (String.eqb_spec password password2) as [<-|]; [|done].
  cbn [negb]. unfold create_user.
  destruct (users db !! username) eqn:Hfree; [done|].
  split_and!; [done|done|]. intros _. split_and!; try done.
  unfold authenticate, hash_password. cbn [users].
  rewrite lookup_insert_eq. cbn. by rewrite String.eqb_refl.
Qed.
End FormProperties.

Lemma signup_then_login_reaches_dashboard_witness :
  ∃ s1 db1 s2 s3 s4,
    signup_submit sample_sha accept_all "Cleo Diaz" "cleo@example.com"
      "9123456789" "cleo" "pa55word" "pa55word" sample_database empty_session
    = (AccountCreated, Rerun s1, db1) ∧
    sidebar false radio_default s1 = Ok (Continue s2) ∧
    ss_page s2 = Some "Log In" ∧
    login_submit sample_sha "cleo" "pa55word" db1 s2
    = (Welcome "Cleo Diaz", Rerun s3) ∧
    sidebar false radio_default s3 = Ok (Continue s4) ∧
    ss_page s4 = Some "Dashboard" ∧
    current_user s4 = Some "cleo" ∧
    ss_full_name s4 = Some "Cleo Diaz".
Proof.
  apply (signup_then_login_reaches_dashboard sample_sha accept_all
           "Cleo Diaz" "cleo@example.com" "9123456789" "cleo" "pa55word"
           sample_database empty_session); by vm_compute.
Defined.

Example add_car_odometer_out_of_range :
  add_car "ben" "Honda" "City" 2019 3000000000 sample_database = DbOutOfRange.
Proof. by vm_compute. Qed.

Example update_car_odometer_out_of_range :
  update_car 1 "Toyota" "Corolla" 2015 3000000000 sample_database
  = DbOutOfRange.
Proof. by vm_compute. Qed.

Example predict_non_numeric_column :
  predict_failure sample_add sample_truediv exact_round sample_assets
    (<["engine_temp_c" := VStr "hot"]> overheating_vitals)
  = Err ValueError.
Proof. by vm_compute. Qed.
